(** * Transaction annotation (enrichment service)

    A shallow embedding of
    [background/services/enrichment/transactions.ts]: the classifier
    [resolveTransactionAnnotation] and the log pass [annotationsFromLogs],
    together with the helpers they import.  Asynchronous collaborator calls
    are values of type [Promise]; [await] is the bind of that monad, so a
    rejection that is not caught ends the run with that rejection.  The
    wall clock read by [Date.now()] is an explicit argument. *)

From Stdlib Require Import ZArith QArith List String Ascii Bool Lia.
From Stdlib Require HexString.
Import ListNotations.

Local Open Scope string_scope.
Local Open Scope Z_scope.

(** ** Promises *)

Inductive Promise (A : Type) : Type :=
| Fulfilled (value : A)
| Rejected (reason : string).

Arguments Fulfilled {A} value.
Arguments Rejected {A} reason.

Definition await {A B : Type} (p : Promise A) (k : A -> Promise B) : Promise B :=
  match p with
  | Fulfilled v => k v
  | Rejected e => Rejected e
  end.

Notation "x <- p ;; k" := (await p (fun x => k))
  (at level 61, p at next level, right associativity).
Notation "' pat <- p ;; k" := (await p (fun x => match x with pat => k end))
  (at level 61, pat pattern, p at next level, right associativity).

(** [Promise.allSettled]: never rejects, hands back every outcome in the
    order of its argument. *)
Definition allSettled {A : Type} (ps : list (Promise A)) : Promise (list (Promise A)) :=
  Fulfilled ps.

(** [.filter(isFulfilledPromise).map(({ value }) => value)] *)
Fixpoint fulfilledValues {A : Type} (ps : list (Promise A)) : list A :=
  match ps with
  | [] => []
  | Fulfilled v :: rest => v :: fulfilledValues rest
  | Rejected _ :: rest => fulfilledValues rest
  end.

Definition isFulfilled {A : Type} (p : Promise A) : bool :=
  match p with Fulfilled _ => true | Rejected _ => false end.

(** [xs.map(f).filter(defined)], the shape of both log parsers. *)
Fixpoint filterMap {A B : Type} (f : A -> option B) (xs : list A) : list B :=
  match xs with
  | [] => []
  | x :: rest =>
      match f x with
      | Some y => y :: filterMap f rest
      | None => filterMap f rest
      end
  end.

(** A property that is [undefined], [null] or set; only [input] is compared
    with [null] by the classifier. *)
Inductive Nullable (A : Type) : Type :=
| undefined
| null
| defined (a : A).

Arguments undefined {A}.
Arguments null {A}.
Arguments defined {A} a.

(** ** lib/utils: addresses *)

Module Utils.

Definition lowerChar (c : ascii) : ascii :=
  let n := nat_of_ascii c in
  if ((65 <=? n) && (n <=? 90))%nat then ascii_of_nat (n + 32) else c.

Fixpoint toLowerCase (s : string) : string :=
  match s with
  | EmptyString => EmptyString
  | String c rest => String (lowerChar c) (toLowerCase rest)
  end.

(** Modelled from the spec: [normalizeEVMAddress] of lib/utils, which is
    not part of the sources at hand.  Addresses are compared
    case-insensitively: mixed-case checksummed and lowercase forms
    must match, so the normal form is the lowercase one. *)
Definition normalizeEVMAddress (address : string) : string :=
  toLowerCase address.

(** Modelled from the spec: [sameEVMAddress] of lib/utils, equality of the
    normal forms. *)
Definition sameEVMAddress (address1 address2 : string) : bool :=
  String.eqb (normalizeEVMAddress address1) (normalizeEVMAddress address2).

(** Hex words of ABI payloads, read by the decoders of lib/erc20 and
    lib/wrappedAsset below. *)
Definition isHexDigit (c : ascii) : bool :=
  match HexString.ascii_to_digit c with Some _ => true | None => false end.

Fixpoint allHex (s : string) : bool :=
  match s with
  | EmptyString => true
  | String c rest => isHexDigit c && allHex rest
  end.

Definition strip0x (s : string) : option string :=
  match s with
  | String "0" (String "x" rest) => Some rest
  | _ => None
  end.

(** The [i]-th 32-byte word of an ABI payload written in hex. *)
Definition hexWord (i : nat) (payload : string) : option string :=
  let w := substring (64 * i) 64 payload in
  if ((String.length w =? 64)%nat && allHex w)%bool then Some w else None.

(** An address is the low 20 bytes of its word. *)
Definition wordToAddress (w : string) : string :=
  "0x" ++ substring 24 40 w.

Definition wordToUint (w : string) : Z :=
  Z.of_N (HexString.Raw.to_N w 0%N).

End Utils.

Import Utils.

(** ** assets *)

Record AssetMetadata : Type := { logoURL : option string }.

(** Modelled from the spec: the asset types of the assets module, which is
    not part of the sources at hand.  A fungible asset has a symbol, a
    decimal precision, a contract address and an optional logo reference;
    the network's base asset is the one without a contract address. *)
Record FungibleAsset : Type := {
  symbol : string;
  decimals : Z;
  asset_contractAddress : option string;
  metadata : option AssetMetadata
}.

(** Entries of the cached catalog: it also holds entries that are not
    fungible. *)
Inductive AnyAsset : Type :=
| OtherAsset (assetSymbol : string)
| Fungible (a : FungibleAsset).

Record AssetAmount : Type := {
  asset : FungibleAsset;
  amount : Z
}.

(** [AssetAmount & AssetDecimalAmount] *)
Record EnrichedAssetAmount : Type := {
  ea_asset : FungibleAsset;
  ea_amount : Z;
  decimalAmount : Q;
  displayDecimals : Z
}.

(** Modelled from the spec: [enrichAssetAmountWithDecimalValues] of
    redux-slices/utils/asset-utils, which is not part of the sources at
    hand.  The enriched form additionally carries the amount divided by
    10^decimals for display, together with the precision the caller asked
    for.  The quotient is kept as an exact rational: no rounding to the
    display precision and no floating point is modelled. *)
Definition enrichAssetAmountWithDecimalValues
    (assetAmount : AssetAmount) (desiredDecimals : Z) : EnrichedAssetAmount :=
  {| ea_asset := asset assetAmount;
     ea_amount := amount assetAmount;
     decimalAmount :=
       (inject_Z (amount assetAmount) / inject_Z (10 ^ decimals (asset assetAmount)))%Q;
     displayDecimals := desiredDecimals |}.

(** ** networks *)

Record EVMNetwork : Type := {
  networkName : string;
  chainID : string;
  baseAsset : FungibleAsset
}.

Record EVMLog : Type := {
  log_contractAddress : string;
  data : string;
  topics : list string
}.

Record AnyEVMBlock : Type := {
  block_hash : string;
  block_timestamp : Z
}.

(** [AnyEVMTransaction | (Partial<EIP1559TransactionRequest> & { from,
    blockHash? })]: every property the classifier reads.  [None] stands for
    a property that is missing (or [null], which the truthiness tests treat
    alike). *)
Record Transaction : Type := {
  from : string;
  to : option string;
  input : Nullable string;
  value : option Z;
  gasLimit : option Z;
  maxFeePerGas : option Z;
  maxPriorityFeePerGas : option Z;
  blockHash : option string;
  logs : option (list EVMLog)
}.

(** ** lib/erc20 and lib/wrappedAsset *)

Record ERC20TransferLog : Type := {
  xfer_contractAddress : string;
  xfer_amount : Z;
  xfer_senderAddress : string;
  xfer_recipientAddress : string
}.

(** The decoded call: the function name with its named arguments. *)
Inductive ERC20TransactionDescription : Type :=
| transfer (to_ : string) (amount_ : Z)
| transferFrom (from_ to_ : string) (amount_ : Z)
| approve (spender_ : string) (value_ : Z).

Module ERC20.

Definition TRANSFER_SELECTOR : string := "a9059cbb".
Definition TRANSFER_FROM_SELECTOR : string := "23b872dd".
Definition APPROVE_SELECTOR : string := "095ea7b3".

(** Topic of [Transfer(address indexed from, address indexed to, uint amount)]. *)
Definition TRANSFER_TOPIC : string :=
  "0xddf252ad1be2c89b69c2b068fc378daa952ba7f163c4a11628f55a4df523b3ef".

(** Modelled from the spec: [parseERC20Tx] of lib/erc20, which is not part
    of the sources at hand.  The leading 4-byte selector is matched against
    the table for transfer, transferFrom and approve; on a match the
    arguments are decoded positionally, one 32-byte word each.  No match, or
    malformed or too short input, yields nothing. *)
Definition parseERC20Tx (input : string) : option ERC20TransactionDescription :=
  match strip0x (toLowerCase input) with
  | None => None
  | Some body =>
      let selector := substring 0 8 body in
      let args := substring 8 (String.length body - 8) body in
      if String.eqb selector TRANSFER_SELECTOR then
        match hexWord 0 args, hexWord 1 args with
        | Some w0, Some w1 => Some (transfer (wordToAddress w0) (wordToUint w1))
        | _, _ => None
        end
      else if String.eqb selector TRANSFER_FROM_SELECTOR then
        match hexWord 0 args, hexWord 1 args, hexWord 2 args with
        | Some w0, Some w1, Some w2 =>
            Some (transferFrom (wordToAddress w0) (wordToAddress w1) (wordToUint w2))
        | _, _, _ => None
        end
      else if String.eqb selector APPROVE_SELECTOR then
        match hexWord 0 args, hexWord 1 args with
        | Some w0, Some w1 => Some (approve (wordToAddress w0) (wordToUint w1))
        | _, _ => None
        end
      else None
  end.

(** A 32-byte topic or data word written as ["0x"] and 64 hex digits. *)
Definition topicWord (t : string) : option string :=
  match strip0x t with
  | Some body => hexWord 0 body
  | None => None
  end.

(** Modelled from the spec: decoding of one standard fungible-token
    transfer event, a three-topic log (event selector, sender, recipient)
    whose data holds the amount.  Any other log is not recognised. *)
Definition decodeTransferLog (log : EVMLog) : option ERC20TransferLog :=
  match topics log with
  | [selector; sender; recipient] =>
      if String.eqb (toLowerCase selector) TRANSFER_TOPIC then
        match topicWord sender, topicWord recipient, topicWord (data log) with
        | Some s, Some r, Some a =>
            Some {| xfer_contractAddress := log_contractAddress log;
                    xfer_amount := wordToUint a;
                    xfer_senderAddress := wordToAddress s;
                    xfer_recipientAddress := wordToAddress r |}
        | _, _, _ => None
        end
      else None
  | _ => None
  end.

(** Modelled from the spec: [parseLogsForERC20Transfers] of lib/erc20.
    Unrecognised logs are skipped; the recognised ones keep their order. *)
Definition parseLogsForERC20Transfers (logs : list EVMLog) : list ERC20TransferLog :=
  filterMap decodeTransferLog logs.

End ERC20.

Module WrappedAsset.

(** Topic of [Deposit(address indexed dst, uint wad)]. *)
Definition DEPOSIT_TOPIC : string :=
  "0xe1fffcc4923d04b559f4d29a8bfc6cda04eb5b0d3c460751c2402c5c5cc9109c".

(** Topic of [Withdrawal(address indexed src, uint wad)]. *)
Definition WITHDRAWAL_TOPIC : string :=
  "0x7fcf532c15f0a6db0bd6d0e038bea71d30d808c7d98cb3bf7268a95bf5081b65".

(** Modelled from the spec: decoding of one wrapped-native-asset event.  A
    deposit or a withdrawal yields a transfer record with the wrapping
    contract as the asset contract and as the counterparty: the sender of a
    deposit, the recipient of a withdrawal. *)
Definition decodeWrappedLog (log : EVMLog) : option ERC20TransferLog :=
  match topics log with
  | [selector; account] =>
      match ERC20.topicWord account, ERC20.topicWord (data log) with
      | Some acc, Some wad =>
          if String.eqb (toLowerCase selector) DEPOSIT_TOPIC then
            Some {| xfer_contractAddress := log_contractAddress log;
                    xfer_amount := wordToUint wad;
                    xfer_senderAddress := log_contractAddress log;
                    xfer_recipientAddress := wordToAddress acc |}
          else if String.eqb (toLowerCase selector) WITHDRAWAL_TOPIC then
            Some {| xfer_contractAddress := log_contractAddress log;
                    xfer_amount := wordToUint wad;
                    xfer_senderAddress := wordToAddress acc;
                    xfer_recipientAddress := log_contractAddress log |}
          else None
      | _, _ => None
      end
  | _ => None
  end.

(** Modelled from the spec: [parseLogsForWrappedDepositsAndWithdrawals] of
    lib/wrappedAsset.  Unrecognised logs are skipped. *)
Definition parseLogsForWrappedDepositsAndWithdrawals
    (logs : list EVMLog) : list ERC20TransferLog :=
  filterMap decodeWrappedLog logs.

End WrappedAsset.

(** ** enrichment/utils *)

Definition includesAddress (addresses : list string) (address : string) : bool :=
  existsb (sameEVMAddress address) addresses.

(** Modelled from the spec: [getERC20LogsForAddresses] of enrichment/utils,
    which is not part of the sources at hand.  Keeps the transfers whose
    sender or recipient is one of the given addresses, compared
    case-insensitively. *)
Definition getERC20LogsForAddresses
    (transferLogs : list ERC20TransferLog) (addresses : list string)
    : list ERC20TransferLog :=
  filter (fun l => includesAddress addresses (xfer_senderAddress l)
                   || includesAddress addresses (xfer_recipientAddress l))
         transferLogs.

(** Distinct members of a list, first occurrences kept in order. *)
Fixpoint distinct (seen : list string) (xs : list string) : list string :=
  match xs with
  | [] => []
  | x :: rest =>
      if existsb (String.eqb x) seen then distinct seen rest
      else x :: distinct (x :: seen) rest
  end.

(** Modelled from the spec: [getDistinctRecipentAddressesFromERC20Logs] of
    enrichment/utils: the distinct recipient addresses of the transfers. *)
Definition getDistinctRecipentAddressesFromERC20Logs
    (transferLogs : list ERC20TransferLog) : list string :=
  distinct [] (map xfer_recipientAddress transferLogs).

(** ** Collaborators: chain, indexing and name services *)

Record AddressOnNetwork : Type := {
  address : string;
  network : EVMNetwork
}.

Record NameOnNetwork : Type := { name : string }.

Record AccountBalance : Type := { balance_assetAmount : AssetAmount }.

Record ChainService : Type := {
  getAccountsToTrack : Promise (list AddressOnNetwork);
  getLatestBaseAccountBalance : AddressOnNetwork -> Promise AccountBalance;
  getBlockData : EVMNetwork -> string -> Promise AnyEVMBlock
}.

Record IndexingService : Type := {
  getCachedAssets : EVMNetwork -> Promise (list AnyAsset)
}.

Record NameService : Type := {
  lookUpName : AddressOnNetwork -> Promise (option NameOnNetwork)
}.

(** ** enrichment/types: the annotation object *)

Inductive AnnotationType : Type :=
| contract_interaction
| contract_deployment
| asset_transfer
| asset_approval.

Inductive Warning : Type :=
| insufficient_funds
| send_to_token.

(** The annotation as the object it is at run time: one [type] tag and a
    set of properties, each of which may be missing. *)
#[warnings="-register-all"]
Inductive TransactionAnnotation : Type := Build_TransactionAnnotation {
  type : AnnotationType;
  timestamp : Z;
  blockTimestamp : option Z;
  warnings : option (list Warning);
  subannotations : option (list TransactionAnnotation);
  contractName : option string;
  transactionLogoURL : option string;
  senderAddress : option string;
  recipientAddress : option string;
  recipientName : option string;
  assetAmount : option EnrichedAssetAmount;
  spenderAddress : option string;
  spenderName : option string
}.

Definition Warning_eqb (a b : Warning) : bool :=
  match a, b with
  | insufficient_funds, insufficient_funds => true
  | send_to_token, send_to_token => true
  | _, _ => false
  end.

(** The warnings of an annotation, a missing list read as empty. *)
Definition warningList (a : TransactionAnnotation) : list Warning :=
  match warnings a with Some ws => ws | None => [] end.

(** The sub-annotations of an annotation, a missing list read as empty. *)
Definition subannotationList (a : TransactionAnnotation) : list TransactionAnnotation :=
  match subannotations a with Some subs => subs | None => [] end.

(** ** The asset matcher shared by both functions *)

(** Modelled from the spec: [isSmartContractFungibleAsset] of the assets
    module, which is not part of the sources at hand.  The catalog includes
    non-fungible and native entries; the guard keeps the fungible,
    contract-backed ones, and gives access to their contract address. *)
Definition isSmartContractFungibleAsset (a : AnyAsset) : option (FungibleAsset * string) :=
  match a with
  | Fungible f =>
      match asset_contractAddress f with
      | Some c => Some (f, c)
      | None => None
      end
  | OtherAsset _ => None
  end.

(** [assets.find((asset) => isSmartContractFungibleAsset(asset) &&
    sameEVMAddress(asset.contractAddress, contractAddress))] *)
Fixpoint findMatchingFungibleAsset
    (assets : list AnyAsset) (contractAddress : string) : option FungibleAsset :=
  match assets with
  | [] => None
  | a :: rest =>
      match isSmartContractFungibleAsset a with
      | Some (f, c) =>
          if sameEVMAddress c contractAddress then Some f
          else findMatchingFungibleAsset rest contractAddress
      | None => findMatchingFungibleAsset rest contractAddress
      end
  end.

(** ** The address -> name object built by [Object.fromEntries] *)

Definition NamesByAddress : Type := list (string * string).

(** Entries whose name is defined, [.filter(([, name]) => isDefined(name))]. *)
Definition definedNames (entries : list (string * option string)) : NamesByAddress :=
  filterMap (fun e => match snd e with Some n => Some (fst e, n) | None => None end)
            entries.

(** Property read on the object: a later entry for a key replaces an
    earlier one. *)
Definition namesByAddressGet (m : NamesByAddress) (key : string) : option string :=
  fold_left (fun found e => if String.eqb (fst e) key then Some (snd e) else found)
            m None.

(** ** annotationsFromLogs *)

(** The callback of [.map] handed to [Promise.allSettled]: one lookup. *)
Definition lookUpRecipientName
    (nameService : NameService) (net : EVMNetwork) (addr : string)
    : Promise (string * option string) :=
  r <- lookUpName nameService {| address := addr; network := net |} ;;
  Fulfilled (normalizeEVMAddress addr, option_map name r).

(** The callback of [flatMap]: no entry without a matching fungible asset,
    otherwise one asset-transfer annotation. *)
Definition subannotationOfTransfer
    (assets : list AnyAsset) (namesByAddress : NamesByAddress)
    (desiredDecimals : Z) (resolvedTime : Z) (block : option AnyEVMBlock)
    (l : ERC20TransferLog) : list TransactionAnnotation :=
  match findMatchingFungibleAsset assets (xfer_contractAddress l) with
  | None => []
  | Some matchingFungibleAsset =>
      let recipientName_ :=
        namesByAddressGet namesByAddress
                          (normalizeEVMAddress (xfer_recipientAddress l)) in
      [ {| type := asset_transfer;
           timestamp := resolvedTime;
           blockTimestamp := option_map block_timestamp block;
           warnings := None;
           subannotations := None;
           contractName := None;
           transactionLogoURL := None;
           senderAddress := Some (xfer_senderAddress l);
           recipientAddress := Some (xfer_recipientAddress l);
           recipientName := recipientName_;
           assetAmount :=
             Some (enrichAssetAmountWithDecimalValues
                     {| asset := matchingFungibleAsset; amount := xfer_amount l |}
                     desiredDecimals);
           spenderAddress := None;
           spenderName := None |} ]
  end.

Definition tokenTransferLogsOf (logs_ : list EVMLog) : list ERC20TransferLog :=
  ERC20.parseLogsForERC20Transfers logs_
  ++ WrappedAsset.parseLogsForWrappedDepositsAndWithdrawals logs_.

Definition annotationsFromLogs
    (chainService : ChainService) (indexingService : IndexingService)
    (nameService : NameService) (logs_ : list EVMLog) (net : EVMNetwork)
    (desiredDecimals : Z) (resolvedTime : Z) (block : option AnyEVMBlock)
    : Promise (list TransactionAnnotation) :=
  assets <- getCachedAssets indexingService net ;;
  accounts <- getAccountsToTrack chainService ;;
  let accountAddresses := map address accounts in
  let tokenTransferLogs := tokenTransferLogsOf logs_ in
  let relevantTransferLogs :=
    getERC20LogsForAddresses tokenTransferLogs accountAddresses in
  settled <- allSettled
               (map (lookUpRecipientName nameService net)
                    (getDistinctRecipentAddressesFromERC20Logs relevantTransferLogs)) ;;
  let namesByAddress := definedNames (fulfilledValues settled) in
  let subannotations_ :=
    flat_map (subannotationOfTransfer assets namesByAddress desiredDecimals
                                      resolvedTime block)
             tokenTransferLogs in
  Fulfilled subannotations_.

(** ** resolveTransactionAnnotation *)

(** Truthiness of an optional bigint: missing and [0n] are both falsy. *)
Definition truthy (x : option Z) : option Z :=
  match x with
  | Some v => if v =? 0 then None else Some v
  | None => None
  end.

(** Truthiness of an optional string: missing and the empty string are
    both falsy. *)
Definition truthyString (x : option string) : option string :=
  match x with
  | Some s => if String.eqb s "" then None else Some s
  | None => None
  end.

(** [warnings ??= []] followed by [warnings.push(w)]. *)
Definition pushWarning (w : Warning) (a : TransactionAnnotation) : TransactionAnnotation :=
  {| type := type a;
     timestamp := timestamp a;
     blockTimestamp := blockTimestamp a;
     warnings := Some (warningList a ++ [w])%list;
     subannotations := subannotations a;
     contractName := contractName a;
     transactionLogoURL := transactionLogoURL a;
     senderAddress := senderAddress a;
     recipientAddress := recipientAddress a;
     recipientName := recipientName a;
     assetAmount := assetAmount a;
     spenderAddress := spenderAddress a;
     spenderName := spenderName a |}.

(** [txAnnotation.warnings = ws]: plain assignment of the property. *)
Definition assignWarnings (ws : list Warning) (a : TransactionAnnotation)
    : TransactionAnnotation :=
  {| type := type a;
     timestamp := timestamp a;
     blockTimestamp := blockTimestamp a;
     warnings := Some ws;
     subannotations := subannotations a;
     contractName := contractName a;
     transactionLogoURL := transactionLogoURL a;
     senderAddress := senderAddress a;
     recipientAddress := recipientAddress a;
     recipientName := recipientName a;
     assetAmount := assetAmount a;
     spenderAddress := spenderAddress a;
     spenderName := spenderName a |}.

(** [txAnnotation.subannotations = subs] *)
Definition assignSubannotations (subs : list TransactionAnnotation)
    (a : TransactionAnnotation) : TransactionAnnotation :=
  {| type := type a;
     timestamp := timestamp a;
     blockTimestamp := blockTimestamp a;
     warnings := warnings a;
     subannotations := Some subs;
     contractName := contractName a;
     transactionLogoURL := transactionLogoURL a;
     senderAddress := senderAddress a;
     recipientAddress := recipientAddress a;
     recipientName := recipientName a;
     assetAmount := assetAmount a;
     spenderAddress := spenderAddress a;
     spenderName := spenderName a |}.

(** By default, annotate all requests as contract interactions. *)
Definition defaultAnnotation (now : Z) : TransactionAnnotation :=
  {| type := contract_interaction;
     timestamp := now;
     blockTimestamp := None;
     warnings := None;
     subannotations := None;
     contractName := None;
     transactionLogoURL := None;
     senderAddress := None;
     recipientAddress := None;
     recipientName := None;
     assetAmount := None;
     spenderAddress := None;
     spenderName := None |}.

(** [transaction.value ?? 0n] *)
Definition valueOrZero (t : Transaction) : Z :=
  match value t with Some v => v | None => 0 end.

(** Lines 142-156: if this is a transaction request and the wallet does
    not have enough base asset to cover gas, push a warning. *)
Definition checkFunds
    (chainService : ChainService) (net : EVMNetwork) (transaction : Transaction)
    (txAnnotation : TransactionAnnotation) : Promise TransactionAnnotation :=
  match truthy (gasLimit transaction), truthy (maxFeePerGas transaction),
        truthy (maxPriorityFeePerGas transaction) with
  | Some gasLimit_, Some maxFeePerGas_, Some _ =>
      let gasFee := gasLimit_ * maxFeePerGas_ in
      bal <- getLatestBaseAccountBalance chainService
               {| address := from transaction; network := net |} ;;
      let baseAssetBalance := amount (balance_assetAmount bal) in
      if gasFee + valueOrZero transaction >? baseAssetBalance
      then Fulfilled (pushWarning insufficient_funds txAnnotation)
      else Fulfilled txAnnotation
  | _, _, _ => Fulfilled txAnnotation
  end.

(** Lines 159-165: if the transaction has been mined, get the block and set
    the timestamp. *)
Definition resolveBlock
    (chainService : ChainService) (net : EVMNetwork) (transaction : Transaction)
    (txAnnotation : TransactionAnnotation)
    : Promise (option AnyEVMBlock * TransactionAnnotation) :=
  match truthyString (blockHash transaction) with
  | Some blockHash_ =>
      block <- getBlockData chainService net blockHash_ ;;
      Fulfilled
        (Some block,
         {| type := type txAnnotation;
            timestamp := timestamp txAnnotation;
            blockTimestamp := Some (block_timestamp block);
            warnings := warnings txAnnotation;
            subannotations := subannotations txAnnotation;
            contractName := contractName txAnnotation;
            transactionLogoURL := transactionLogoURL txAnnotation;
            senderAddress := senderAddress txAnnotation;
            recipientAddress := recipientAddress txAnnotation;
            recipientName := recipientName txAnnotation;
            assetAmount := assetAmount txAnnotation;
            spenderAddress := spenderAddress txAnnotation;
            spenderName := spenderName txAnnotation |})
  | None => Fulfilled (None, txAnnotation)
  end.

(** The call data of a transaction: none when [input] is [null], ["0x"] or
    [undefined]. *)
Definition callData (i : Nullable string) : option string :=
  match i with
  | undefined => None
  | null => None
  | defined s => if String.eqb s "0x" then None else Some s
  end.

(** [(await nameService.lookUpName({ address, network })) ?? { name:
    undefined }], destructured to its name. *)
Definition lookUpNameOf
    (nameService : NameService) (net : EVMNetwork) (addr : string)
    : Promise (option string) :=
  r <- lookUpName nameService {| address := addr; network := net |} ;;
  Fulfilled (option_map name r).

(** [matchingFungibleAsset?.metadata?.logoURL] *)
Definition logoOf (matching : option FungibleAsset) : option string :=
  match matching with
  | Some a => match metadata a with Some m => logoURL m | None => None end
  | None => None
  end.

(** Lines 193-214: a transaction without call data sent to [to_]. *)
Definition annotateNoData
    (net : EVMNetwork) (transaction : Transaction) (desiredDecimals : Z)
    (to_ : string) (toName : option string) (txAnnotation : TransactionAnnotation)
    : TransactionAnnotation :=
  match value transaction with
  | Some value_ =>
      {| type := asset_transfer;
         timestamp := timestamp txAnnotation;
         blockTimestamp := blockTimestamp txAnnotation;
         warnings := warnings txAnnotation;
         subannotations := subannotations txAnnotation;
         contractName := contractName txAnnotation;
         transactionLogoURL := transactionLogoURL txAnnotation;
         senderAddress := Some (from transaction);
         recipientAddress := Some to_;
         recipientName := toName;
         assetAmount :=
           Some (enrichAssetAmountWithDecimalValues
                   {| asset := baseAsset net; amount := value_ |} desiredDecimals);
         spenderAddress := spenderAddress txAnnotation;
         spenderName := spenderName txAnnotation |}
  | None =>
      (* Fall back on a standard contract interaction. *)
      {| type := type txAnnotation;
         timestamp := timestamp txAnnotation;
         blockTimestamp := blockTimestamp txAnnotation;
         warnings := warnings txAnnotation;
         subannotations := subannotations txAnnotation;
         contractName := toName;
         transactionLogoURL := transactionLogoURL txAnnotation;
         senderAddress := senderAddress txAnnotation;
         recipientAddress := recipientAddress txAnnotation;
         recipientName := recipientName txAnnotation;
         assetAmount := assetAmount txAnnotation;
         spenderAddress := spenderAddress txAnnotation;
         spenderName := spenderName txAnnotation |}
  end.

(** Lines 235-259: we have an ERC-20 transfer.  [argFrom] is
    [erc20Tx.args.from], missing for [transfer]. *)
Definition annotateERC20Transfer
    (nameService : NameService) (net : EVMNetwork) (transaction : Transaction)
    (desiredDecimals : Z) (to_ : string) (matchingFungibleAsset : FungibleAsset)
    (argFrom : option string) (argTo : string) (argAmount : Z)
    (txAnnotation : TransactionAnnotation) : Promise TransactionAnnotation :=
  toName <- lookUpNameOf nameService net argTo ;;
  let txAnnotation' :=
    {| type := asset_transfer;
       timestamp := timestamp txAnnotation;
       blockTimestamp := blockTimestamp txAnnotation;
       warnings := warnings txAnnotation;
       subannotations := subannotations txAnnotation;
       contractName := contractName txAnnotation;
       transactionLogoURL := logoOf (Some matchingFungibleAsset);
       senderAddress :=
         Some match argFrom with Some f => f | None => from transaction end;
       recipientAddress := Some argTo;
       recipientName := toName;
       assetAmount :=
         Some (enrichAssetAmountWithDecimalValues
                 {| asset := matchingFungibleAsset; amount := argAmount |}
                 desiredDecimals);
       spenderAddress := spenderAddress txAnnotation;
       spenderName := spenderName txAnnotation |} in
  (* Warn if we're sending the token to its own contract *)
  if sameEVMAddress argTo to_
  then Fulfilled (assignWarnings [send_to_token] txAnnotation')
  else Fulfilled txAnnotation'.

(** Lines 261-279: an ERC-20 approval. *)
Definition annotateERC20Approval
    (nameService : NameService) (net : EVMNetwork) (desiredDecimals : Z)
    (matchingFungibleAsset : FungibleAsset) (argSpender : string) (argValue : Z)
    (txAnnotation : TransactionAnnotation) : Promise TransactionAnnotation :=
  spenderName_ <- lookUpNameOf nameService net argSpender ;;
  Fulfilled
    {| type := asset_approval;
       timestamp := timestamp txAnnotation;
       blockTimestamp := blockTimestamp txAnnotation;
       warnings := warnings txAnnotation;
       subannotations := subannotations txAnnotation;
       contractName := contractName txAnnotation;
       transactionLogoURL := logoOf (Some matchingFungibleAsset);
       senderAddress := senderAddress txAnnotation;
       recipientAddress := recipientAddress txAnnotation;
       recipientName := recipientName txAnnotation;
       assetAmount :=
         Some (enrichAssetAmountWithDecimalValues
                 {| asset := matchingFungibleAsset; amount := argValue |}
                 desiredDecimals);
       spenderAddress := Some argSpender;
       spenderName := spenderName_ |}.

(** Lines 281-295: fall back on a standard contract interaction. *)
Definition annotateContractInteraction
    (nameService : NameService) (net : EVMNetwork) (to_ : string)
    (matching : option FungibleAsset) (txAnnotation : TransactionAnnotation)
    : Promise TransactionAnnotation :=
  toName <- lookUpNameOf nameService net to_ ;;
  Fulfilled
    {| type := contract_interaction;
       timestamp := timestamp txAnnotation;
       blockTimestamp := blockTimestamp txAnnotation;
       warnings := warnings txAnnotation;
       subannotations := subannotations txAnnotation;
       contractName := toName;
       transactionLogoURL := logoOf matching;
       senderAddress := senderAddress txAnnotation;
       recipientAddress := recipientAddress txAnnotation;
       recipientName := recipientName txAnnotation;
       assetAmount := assetAmount txAnnotation;
       spenderAddress := spenderAddress txAnnotation;
       spenderName := spenderName txAnnotation |}.

(** Lines 167-297: the classification proper. *)
Definition classify
    (indexingService : IndexingService) (nameService : NameService)
    (net : EVMNetwork) (transaction : Transaction) (desiredDecimals : Z)
    (txAnnotation : TransactionAnnotation) : Promise TransactionAnnotation :=
  match to transaction with
  | None =>
      (* If the tx is missing a recipient, its a contract deployment. *)
      Fulfilled
        {| type := contract_deployment;
           timestamp := timestamp txAnnotation;
           blockTimestamp := blockTimestamp txAnnotation;
           warnings := warnings txAnnotation;
           subannotations := subannotations txAnnotation;
           contractName := contractName txAnnotation;
           transactionLogoURL := transactionLogoURL txAnnotation;
           senderAddress := senderAddress txAnnotation;
           recipientAddress := recipientAddress txAnnotation;
           recipientName := recipientName txAnnotation;
           assetAmount := assetAmount txAnnotation;
           spenderAddress := spenderAddress txAnnotation;
           spenderName := spenderName txAnnotation |}
  | Some to_ =>
      match callData (input transaction) with
      | None =>
          toName <- lookUpNameOf nameService net to_ ;;
          Fulfilled (annotateNoData net transaction desiredDecimals to_ toName
                                    txAnnotation)
      | Some input_ =>
          assets <- getCachedAssets indexingService net ;;
          let matchingFungibleAsset := findMatchingFungibleAsset assets to_ in
          let erc20Tx := ERC20.parseERC20Tx input_ in
          match matchingFungibleAsset, erc20Tx with
          | Some a, Some (transfer argTo argAmount) =>
              annotateERC20Transfer nameService net transaction desiredDecimals
                                    to_ a None argTo argAmount txAnnotation
          | Some a, Some (transferFrom argFrom argTo argAmount) =>
              annotateERC20Transfer nameService net transaction desiredDecimals
                                    to_ a (Some argFrom) argTo argAmount txAnnotation
          | Some a, Some (approve argSpender argValue) =>
              annotateERC20Approval nameService net desiredDecimals a
                                    argSpender argValue txAnnotation
          | _, _ =>
              annotateContractInteraction nameService net to_
                                          matchingFungibleAsset txAnnotation
          end
      end
  end.

(** Lines 299-315: look up logs and resolve subannotations, if available. *)
Definition resolveSubannotations
    (chainService : ChainService) (indexingService : IndexingService)
    (nameService : NameService) (net : EVMNetwork) (transaction : Transaction)
    (desiredDecimals : Z) (block : option AnyEVMBlock)
    (txAnnotation : TransactionAnnotation) : Promise TransactionAnnotation :=
  match logs transaction with
  | Some logs_ =>
      subannotations_ <-
        annotationsFromLogs chainService indexingService nameService logs_ net
                            desiredDecimals (timestamp txAnnotation) block ;;
      match subannotations_ with
      | [] => Fulfilled txAnnotation
      | _ :: _ => Fulfilled (assignSubannotations subannotations_ txAnnotation)
      end
  | None => Fulfilled txAnnotation
  end.

(** Resolve an annotation for a partial transaction request, or a pending
    or mined transaction.  [now] is the value of [Date.now()]. *)
Definition resolveTransactionAnnotation
    (chainService : ChainService) (indexingService : IndexingService)
    (nameService : NameService) (now : Z) (net : EVMNetwork)
    (transaction : Transaction) (desiredDecimals : Z)
    : Promise TransactionAnnotation :=
  let txAnnotation := defaultAnnotation now in
  txAnnotation <- checkFunds chainService net transaction txAnnotation ;;
  ' (block, txAnnotation) <- resolveBlock chainService net transaction txAnnotation ;;
  txAnnotation <- classify indexingService nameService net transaction
                           desiredDecimals txAnnotation ;;
  resolveSubannotations chainService indexingService nameService net transaction
                        desiredDecimals block txAnnotation.

(** ** Vocabulary of the properties *)

(** The arguments of a decoded [transfer] or [transferFrom]: the optional
    [from], then [to] and [amount]; nothing for [approve]. *)
Definition transferArgs (erc20Tx : ERC20TransactionDescription)
    : option (option string * string * Z) :=
  match erc20Tx with
  | transfer argTo argAmount => Some (None, argTo, argAmount)
  | transferFrom argFrom argTo argAmount => Some (Some argFrom, argTo, argAmount)
  | approve _ _ => None
  end.

(** The transfer record of one log, whichever parser recognises it. *)
Definition decodeTokenTransferLog (log : EVMLog) : option ERC20TransferLog :=
  match ERC20.decodeTransferLog log with
  | Some l => Some l
  | None => WrappedAsset.decodeWrappedLog log
  end.

(** The transfer records in the order of their originating logs. *)
Definition transfersInLogOrder (logs_ : list EVMLog) : list ERC20TransferLog :=
  filterMap decodeTokenTransferLog logs_.

(** A transfer touches a tracked account: the test by which
    [getERC20LogsForAddresses] keeps it. *)
Definition touchesTrackedAccount
    (accountAddresses : list string) (l : ERC20TransferLog) : bool :=
  includesAddress accountAddresses (xfer_senderAddress l)
  || includesAddress accountAddresses (xfer_recipientAddress l).

Definition matchesCatalogAsset (assets : list AnyAsset) (l : ERC20TransferLog) : bool :=
  match findMatchingFungibleAsset assets (xfer_contractAddress l) with
  | Some _ => true
  | None => false
  end.

(** A sub-annotation describes a transfer record: an asset-transfer with
    the record's parties and its amount in the matching catalog asset. *)
Definition describesTransfer
    (assets : list AnyAsset) (desiredDecimals : Z)
    (sub : TransactionAnnotation) (l : ERC20TransferLog) : Prop :=
  type sub = asset_transfer
  /\ senderAddress sub = Some (xfer_senderAddress l)
  /\ recipientAddress sub = Some (xfer_recipientAddress l)
  /\ exists a,
       findMatchingFungibleAsset assets (xfer_contractAddress l) = Some a
       /\ assetAmount sub
          = Some (enrichAssetAmountWithDecimalValues
                    {| asset := a; amount := xfer_amount l |} desiredDecimals).

(** The properties an annotation may carry are those of its [type]; the
    ones that make up the variant are set, those of other variants are
    missing. *)
Definition variantFieldsOnly (a : TransactionAnnotation) : Prop :=
  match type a with
  | contract_interaction =>
      senderAddress a = None /\ recipientAddress a = None
      /\ recipientName a = None /\ assetAmount a = None
      /\ spenderAddress a = None /\ spenderName a = None
  | contract_deployment =>
      contractName a = None /\ transactionLogoURL a = None
      /\ senderAddress a = None /\ recipientAddress a = None
      /\ recipientName a = None /\ assetAmount a = None
      /\ spenderAddress a = None /\ spenderName a = None
  | asset_transfer =>
      senderAddress a <> None /\ recipientAddress a <> None
      /\ assetAmount a <> None
      /\ contractName a = None
      /\ spenderAddress a = None /\ spenderName a = None
  | asset_approval =>
      spenderAddress a <> None /\ assetAmount a <> None
      /\ contractName a = None
      /\ senderAddress a = None /\ recipientAddress a = None
      /\ recipientName a = None
  end.

(** What a stage leaves alone: every property but [warnings],
    [blockTimestamp] and [subannotations]. *)
Definition sameVariant (a b : TransactionAnnotation) : Prop :=
  type a = type b /\ timestamp a = timestamp b
  /\ contractName a = contractName b
  /\ transactionLogoURL a = transactionLogoURL b
  /\ senderAddress a = senderAddress b
  /\ recipientAddress a = recipientAddress b
  /\ recipientName a = recipientName b
  /\ assetAmount a = assetAmount b
  /\ spenderAddress a = spenderAddress b
  /\ spenderName a = spenderName b.

(** An annotation with its wall-clock timestamp, and that of its
    sub-annotations, blanked. *)
Fixpoint withoutTimestamp (a : TransactionAnnotation) : TransactionAnnotation :=
  {| type := type a;
     timestamp := 0;
     blockTimestamp := blockTimestamp a;
     warnings := warnings a;
     subannotations := option_map (map withoutTimestamp) (subannotations a);
     contractName := contractName a;
     transactionLogoURL := transactionLogoURL a;
     senderAddress := senderAddress a;
     recipientAddress := recipientAddress a;
     recipientName := recipientName a;
     assetAmount := assetAmount a;
     spenderAddress := spenderAddress a;
     spenderName := spenderName a |}.

(** A mined block paired with an annotation whose timestamp is blanked. *)
Definition blockAndUnclocked (r : option AnyEVMBlock * TransactionAnnotation)
    : option AnyEVMBlock * TransactionAnnotation :=
  (fst r, withoutTimestamp (snd r)).

Definition mapPromise {A B : Type} (f : A -> B) (p : Promise A) : Promise B :=
  match p with
  | Fulfilled v => Fulfilled (f v)
  | Rejected e => Rejected e
  end.

(** The address -> name object of [annotationsFromLogs] for the given
    relevant transfers: the fulfilled lookups that gave a name. *)
Definition lookedUpNames
    (nameService : NameService) (net : EVMNetwork)
    (relevantTransferLogs : list ERC20TransferLog) : NamesByAddress :=
  definedNames
    (fulfilledValues
       (map (lookUpRecipientName nameService net)
            (getDistinctRecipentAddressesFromERC20Logs relevantTransferLogs))).

(** Sub-annotations as a one-to-one description of the transfers that
    touch a tracked account and match a catalog asset, the transfers taken
    in the order in which they are parsed. *)
Definition describeTrackedTransfers
    (accountAddresses : list string) (assets : list AnyAsset) (desiredDecimals : Z)
    (subs : list TransactionAnnotation) (logs_ : list EVMLog) : Prop :=
  Forall2 (describesTransfer assets desiredDecimals) subs
          (filter (fun l => touchesTrackedAccount accountAddresses l
                            && matchesCatalogAsset assets l)
                  (tokenTransferLogsOf logs_)).

(** Sub-annotations as a one-to-one description of the transfers that
    match a catalog asset, the transfers taken in the order of their
    originating logs. *)
Definition describeTransfersInLogOrder
    (assets : list AnyAsset) (desiredDecimals : Z)
    (subs : list TransactionAnnotation) (logs_ : list EVMLog) : Prop :=
  Forall2 (describesTransfer assets desiredDecimals) subs
          (filter (matchesCatalogAsset assets) (transfersInLogOrder logs_)).

(** The funds warning as a property of one run: present exactly when the
    fee and the value together exceed the fetched balance. *)
Definition fundsWarningIffShort
    (chainService : ChainService) (indexingService : IndexingService)
    (nameService : NameService) (now : Z) (net : EVMNetwork)
    (transaction : Transaction) (desiredDecimals : Z) : Prop :=
  forall gasLimit_ maxFeePerGas_ maxPriorityFeePerGas_ bal ann,
    gasLimit transaction = Some gasLimit_ ->
    maxFeePerGas transaction = Some maxFeePerGas_ ->
    maxPriorityFeePerGas transaction = Some maxPriorityFeePerGas_ ->
    getLatestBaseAccountBalance chainService
      {| address := from transaction; network := net |} = Fulfilled bal ->
    resolveTransactionAnnotation chainService indexingService nameService now net
                                 transaction desiredDecimals = Fulfilled ann ->
    (In insufficient_funds (warningList ann)
     <-> gasLimit_ * maxFeePerGas_ + valueOrZero transaction
         > amount (balance_assetAmount bal)).

(** A chain service with another balance fetch. *)
Definition withBalanceFetch
    (fetch : AddressOnNetwork -> Promise AccountBalance) (c : ChainService)
    : ChainService :=
  {| getAccountsToTrack := getAccountsToTrack c;
     getLatestBaseAccountBalance := fetch;
     getBlockData := getBlockData c |}.

(** The same transaction with another [logs] property. *)
Definition withLogs (logs_ : option (list EVMLog)) (t : Transaction) : Transaction :=
  {| from := from t; to := to t; input := input t; value := value t;
     gasLimit := gasLimit t; maxFeePerGas := maxFeePerGas t;
     maxPriorityFeePerGas := maxPriorityFeePerGas t;
     blockHash := blockHash t; logs := logs_ |}.

(** An annotation without its sub-annotations. *)
Definition withoutSubannotations (a : TransactionAnnotation) : TransactionAnnotation :=
  {| type := type a;
     timestamp := timestamp a;
     blockTimestamp := blockTimestamp a;
     warnings := warnings a;
     subannotations := None;
     contractName := contractName a;
     transactionLogoURL := transactionLogoURL a;
     senderAddress := senderAddress a;
     recipientAddress := recipientAddress a;
     recipientName := recipientName a;
     assetAmount := assetAmount a;
     spenderAddress := spenderAddress a;
     spenderName := spenderName a |}.

(** The same transaction with another [maxPriorityFeePerGas] property. *)
Definition withMaxPriorityFeePerGas (fee : option Z) (t : Transaction) : Transaction :=
  {| from := from t; to := to t; input := input t; value := value t;
     gasLimit := gasLimit t; maxFeePerGas := maxFeePerGas t;
     maxPriorityFeePerGas := fee;
     blockHash := blockHash t; logs := logs t |}.

(** The transfers whose recipients get a name lookup: those that touch one
    of the tracked accounts. *)
Definition relevantTransferLogsOf
    (logs_ : list EVMLog) (accounts : list AddressOnNetwork) : list ERC20TransferLog :=
  getERC20LogsForAddresses (tokenTransferLogsOf logs_) (map address accounts).

(** ** Sample data: a network, a catalog, logs and collaborators *)

Module Sample.

Definition ETH : FungibleAsset :=
  {| symbol := "ETH"; decimals := 18; asset_contractAddress := None;
     metadata := None |}.

Definition DAI : FungibleAsset :=
  {| symbol := "DAI"; decimals := 18;
     asset_contractAddress := Some "0x6B175474E89094C44Da98b954EedeAC495271d0F";
     metadata := Some {| logoURL := Some "dai.svg" |} |}.

Definition WETH : FungibleAsset :=
  {| symbol := "WETH"; decimals := 18;
     asset_contractAddress := Some "0xC02aaA39b223FE8D0A0e5C4F27eAD9083C756Cc2";
     metadata := None |}.

Definition mainnet : EVMNetwork :=
  {| networkName := "Ethereum"; chainID := "1"; baseAsset := ETH |}.

Definition catalog : list AnyAsset :=
  [OtherAsset "PUNK"; Fungible ETH; Fungible DAI; Fungible WETH].

Definition daiAddress : string := "0x6b175474e89094c44da98b954eedeac495271d0f".
Definition wethAddress : string := "0xc02aaa39b223fe8d0a0e5c4f27ead9083c756cc2".
Definition alice : string := "0x1111111111111111111111111111111111111111".
Definition bob : string := "0x2222222222222222222222222222222222222222".
Definition carol : string := "0x3333333333333333333333333333333333333333".

Definition aliceWord : string :=
  "0x0000000000000000000000001111111111111111111111111111111111111111".
Definition bobWord : string :=
  "0x0000000000000000000000002222222222222222222222222222222222222222".
Definition carolWord : string :=
  "0x0000000000000000000000003333333333333333333333333333333333333333".
Definition amount100 : string :=
  "0x0000000000000000000000000000000000000000000000000000000000000064".
Definition amount7 : string :=
  "0x0000000000000000000000000000000000000000000000000000000000000007".

(** DAI [Transfer] from alice to bob of 100 units. *)
Definition transferAliceBob : EVMLog :=
  {| log_contractAddress := daiAddress; data := amount100;
     topics := [ERC20.TRANSFER_TOPIC; aliceWord; bobWord] |}.

(** DAI [Transfer] from bob to carol of 7 units. *)
Definition transferBobCarol : EVMLog :=
  {| log_contractAddress := daiAddress; data := amount7;
     topics := [ERC20.TRANSFER_TOPIC; bobWord; carolWord] |}.

(** WETH [Deposit] crediting alice with 7 units. *)
Definition depositAlice : EVMLog :=
  {| log_contractAddress := wethAddress; data := amount7;
     topics := [WrappedAsset.DEPOSIT_TOPIC; aliceWord] |}.

(** A log no parser recognises: an ERC-20 [Approval]. *)
Definition unrelatedLog : EVMLog :=
  {| log_contractAddress := daiAddress; data := amount7;
     topics := ["0x8c5be1e5ebec7d5bd14f71427d1e84f3dd0314c0f7b2291e5b200ac8c7c3b925";
                aliceWord; bobWord] |}.

(** Call data of [transfer(bob, 100)]. *)
Definition transferToBob : string :=
  "0xa9059cbb"
  ++ "0000000000000000000000002222222222222222222222222222222222222222"
  ++ "0000000000000000000000000000000000000000000000000000000000000064".

(** Call data of [transfer(<the DAI contract>, 100)]. *)
Definition transferToDai : string :=
  "0xa9059cbb"
  ++ "0000000000000000000000006b175474e89094c44da98b954eedeac495271d0f"
  ++ "0000000000000000000000000000000000000000000000000000000000000064".

(** Call data of [transferFrom(alice, bob, 7)]. *)
Definition transferFromAliceToBob : string :=
  "0x23b872dd"
  ++ "0000000000000000000000001111111111111111111111111111111111111111"
  ++ "0000000000000000000000002222222222222222222222222222222222222222"
  ++ "0000000000000000000000000000000000000000000000000000000000000007".

(** A chain service tracking alice, whose base balance is [balance_]. *)
Definition chain (balance_ : Z) : ChainService :=
  {| getAccountsToTrack := Fulfilled [ {| address := alice; network := mainnet |} ];
     getLatestBaseAccountBalance := fun _ =>
       Fulfilled {| balance_assetAmount := {| asset := ETH; amount := balance_ |} |};
     getBlockData := fun _ h =>
       Fulfilled {| block_hash := h; block_timestamp := 1650000000 |} |}.

Definition indexing : IndexingService :=
  {| getCachedAssets := fun _ => Fulfilled catalog |}.

(** A name service that knows bob and nobody else. *)
Definition names : NameService :=
  {| lookUpName := fun a =>
       if sameEVMAddress (address a) bob
       then Fulfilled (Some {| name := "bob.eth" |})
       else Fulfilled None |}.

(** A name service whose every lookup times out. *)
Definition namesDown : NameService :=
  {| lookUpName := fun _ => Rejected "name lookup timed out" |}.

(** A transaction with only a sender. *)
Definition emptyTransaction : Transaction :=
  {| from := alice; to := None; input := undefined; value := None;
     gasLimit := None; maxFeePerGas := None; maxPriorityFeePerGas := None;
     blockHash := None; logs := None |}.

(** A name service that times out on bob and knows nobody else. *)
Definition namesFlaky : NameService :=
  {| lookUpName := fun a =>
       if sameEVMAddress (address a) bob
       then Rejected "name lookup timed out"
       else Fulfilled None |}.

(** [transferFrom(alice, bob, 7)] sent to the DAI contract. *)
Definition daiTransferFrom : Transaction :=
  {| from := carol; to := Some daiAddress; input := defined transferFromAliceToBob;
     value := None; gasLimit := None; maxFeePerGas := None;
     maxPriorityFeePerGas := None; blockHash := None; logs := None |}.

(** A request to [transfer] 100 DAI to the DAI contract itself. *)
Definition daiTransferToItself : Transaction :=
  {| from := alice; to := Some daiAddress; input := defined transferToDai;
     value := None; gasLimit := Some 21000; maxFeePerGas := Some 10;
     maxPriorityFeePerGas := Some 1; blockHash := None; logs := None |}.

(** A plain send of [value_] from alice to bob, with the given fee per gas. *)
Definition ethSend (value_ : option Z) (maxFeePerGas_ : option Z) : Transaction :=
  {| from := alice; to := Some bob; input := defined "0x"; value := value_;
     gasLimit := Some 21000; maxFeePerGas := maxFeePerGas_;
     maxPriorityFeePerGas := Some 1; blockHash := None; logs := None |}.

(** A mined call of an unknown function of carol, with its logs. *)
Definition minedCall (logs_ : list EVMLog) : Transaction :=
  {| from := alice; to := Some carol; input := defined "0x12345678";
     value := Some 0; gasLimit := None; maxFeePerGas := None;
     maxPriorityFeePerGas := None; blockHash := Some "0xb10c";
     logs := Some logs_ |}.

(** Call data of [approve(bob, 100)]. *)
Definition approveBob : string :=
  "0x095ea7b3"
  ++ "0000000000000000000000002222222222222222222222222222222222222222"
  ++ "0000000000000000000000000000000000000000000000000000000000000064".

(** A request to let bob spend 100 DAI of alice, which she cannot pay for
    when her balance is below 210000. *)
Definition daiApprove : Transaction :=
  {| from := alice; to := Some daiAddress; input := defined approveBob;
     value := None; gasLimit := Some 21000; maxFeePerGas := Some 10;
     maxPriorityFeePerGas := Some 1; blockHash := None; logs := None |}.

(** A call of an unknown function of the DAI contract. *)
Definition daiUnknownCall : Transaction :=
  {| from := alice; to := Some daiAddress; input := defined "0x12345678";
     value := None; gasLimit := None; maxFeePerGas := None;
     maxPriorityFeePerGas := None; blockHash := None; logs := None |}.

(** A mined contract creation, with its logs if any. *)
Definition deployment (logs_ : option (list EVMLog)) : Transaction :=
  {| from := alice; to := None; input := defined "0x60806040";
     value := Some 0; gasLimit := None; maxFeePerGas := None;
     maxPriorityFeePerGas := None; blockHash := Some "0xb10c"; logs := logs_ |}.

(** An indexing service whose catalog cannot be fetched. *)
Definition indexingDown : IndexingService :=
  {| getCachedAssets := fun _ => Rejected "catalog unavailable" |}.

(** A chain service whose block data cannot be fetched. *)
Definition chainWithoutBlocks : ChainService :=
  {| getAccountsToTrack := getAccountsToTrack (chain 0);
     getLatestBaseAccountBalance := getLatestBaseAccountBalance (chain 0);
     getBlockData := fun _ _ => Rejected "block unavailable" |}.

(** A name service that has a name for every address. *)
Definition namesAll : NameService :=
  {| lookUpName := fun _ => Fulfilled (Some {| name := "known.eth" |}) |}.

(** A plain send of 5 units to the address of the DAI contract. *)
Definition sendToDaiContract : Transaction :=
  {| from := alice; to := Some daiAddress; input := null; value := Some 5;
     gasLimit := None; maxFeePerGas := None; maxPriorityFeePerGas := None;
     blockHash := None; logs := None |}.

End Sample.

(** * Properties *)

(** ** Awaiting *)

Lemma await_Fulfilled {A B : Type} (p : Promise A) (k : A -> Promise B) (b : B) :
  await p k = Fulfilled b -> exists a, p = Fulfilled a /\ k a = Fulfilled b.
Proof.
  destruct p as [a | e]; simpl; intros H.
  - exists a. split; [reflexivity | exact H].
  - discriminate H.
Qed.

Lemma await_Rejected {A B : Type} (p : Promise A) (k : A -> Promise B) (e : string) :
  p = Rejected e -> await p k = Rejected e.
Proof. intros ->. reflexivity. Qed.

(** Splits a fulfilled [await] in hypothesis [H] into its first step,
    fulfilled with a fresh value, and the rest, which stays in [H]. *)
Ltac split_await H :=
  let a := fresh "v" in
  let Hp := fresh "Hp" in
  apply await_Fulfilled in H; destruct H as [a [Hp H]].

Lemma Fulfilled_inj {A : Type} (a b : A) : Fulfilled a = Fulfilled b -> a = b.
Proof. intros H. injection H as H. exact H. Qed.

Ltac fulfilled_eq H := apply Fulfilled_inj in H; try subst.

(** ** Addresses *)

Lemma sameEVMAddress_sym (a b : string) :
  sameEVMAddress a b = sameEVMAddress b a.
Proof. unfold sameEVMAddress. apply String.eqb_sym. Qed.

Lemma sameEVMAddress_true (a b : string) :
  sameEVMAddress a b = true <-> normalizeEVMAddress a = normalizeEVMAddress b.
Proof. unfold sameEVMAddress. apply String.eqb_eq. Qed.

Lemma sameEVMAddress_trans_r (a b c : string) :
  sameEVMAddress b c = true -> sameEVMAddress a b = sameEVMAddress a c.
Proof.
  intros H. apply sameEVMAddress_true in H.
  unfold sameEVMAddress. rewrite H. reflexivity.
Qed.

(** The asset found for an address is a catalog entry carrying a contract
    address equal to it up to case. *)
Lemma findMatchingFungibleAsset_sound (assets : list AnyAsset) (addr : string)
    (f : FungibleAsset) :
  findMatchingFungibleAsset assets addr = Some f ->
  In (Fungible f) assets
  /\ exists c, asset_contractAddress f = Some c /\ sameEVMAddress c addr = true.
Proof.
  induction assets as [| a rest IH]; simpl; [discriminate |].
  destruct a as [s | g]; simpl.
  - intros H. destruct (IH H) as [Hin Hc]. split; [right; exact Hin | exact Hc].
  - destruct (asset_contractAddress g) as [c |] eqn:Ec.
    + destruct (sameEVMAddress c addr) eqn:Es.
      * intros H. injection H as <-. split; [left; reflexivity |].
        exists c. split; assumption.
      * intros H. destruct (IH H) as [Hin Hc]. split; [right; exact Hin | exact Hc].
    + intros H. destruct (IH H) as [Hin Hc]. split; [right; exact Hin | exact Hc].
Qed.

(** ** The stages of the classifier *)

Lemma resolveTransactionAnnotation_stages
    chainService indexingService nameService now net transaction desiredDecimals ann :
  resolveTransactionAnnotation chainService indexingService nameService now net
                               transaction desiredDecimals = Fulfilled ann ->
  exists a1 block a2 a3,
    checkFunds chainService net transaction (defaultAnnotation now) = Fulfilled a1
    /\ resolveBlock chainService net transaction a1 = Fulfilled (block, a2)
    /\ classify indexingService nameService net transaction desiredDecimals a2
       = Fulfilled a3
    /\ resolveSubannotations chainService indexingService nameService net
                             transaction desiredDecimals block a3 = Fulfilled ann.
Proof.
  unfold resolveTransactionAnnotation. intros H.
  split_await H. split_await H. destruct v0 as [block a2]. split_await H.
  exists v, block, a2, v0. repeat split; assumption.
Qed.

Lemma sameVariant_refl a : sameVariant a a.
Proof. unfold sameVariant. repeat split. Qed.

Lemma checkFunds_frame chainService net transaction a a1 :
  checkFunds chainService net transaction a = Fulfilled a1 ->
  sameVariant a a1 /\ blockTimestamp a1 = blockTimestamp a
  /\ subannotations a1 = subannotations a
  /\ (warnings a1 = warnings a
      \/ warnings a1 = Some (warningList a ++ [insufficient_funds])%list).
Proof.
  unfold checkFunds. intros H.
  destruct (truthy (gasLimit transaction)) as [g |];
    [destruct (truthy (maxFeePerGas transaction)) as [f |];
     [destruct (truthy (maxPriorityFeePerGas transaction)) as [p |] |] |].
  2-4: fulfilled_eq H; split; [apply sameVariant_refl | auto].
  split_await H. cbv zeta in H.
  destruct (g * f + valueOrZero transaction >? _); fulfilled_eq H.
  - split; [unfold sameVariant; simpl; repeat split | simpl; auto].
  - split; [apply sameVariant_refl | auto].
Qed.

Lemma resolveBlock_frame chainService net transaction a block a2 :
  resolveBlock chainService net transaction a = Fulfilled (block, a2) ->
  sameVariant a a2 /\ warnings a2 = warnings a
  /\ subannotations a2 = subannotations a
  /\ blockTimestamp a2
     = match block with Some b => Some (block_timestamp b) | None => blockTimestamp a end.
Proof.
  unfold resolveBlock. intros H.
  destruct (truthyString (blockHash transaction)) as [h |].
  - split_await H. injection H as <- <-.
    split; [unfold sameVariant; simpl; repeat split | simpl; auto].
  - injection H as <- <-. split; [apply sameVariant_refl | auto].
Qed.

Lemma resolveSubannotations_frame
    chainService indexingService nameService net transaction desiredDecimals block a ann :
  resolveSubannotations chainService indexingService nameService net transaction
                        desiredDecimals block a = Fulfilled ann ->
  sameVariant a ann /\ warnings ann = warnings a
  /\ blockTimestamp ann = blockTimestamp a.
Proof.
  unfold resolveSubannotations. intros H.
  destruct (logs transaction) as [logs_ |].
  - split_await H. destruct v; fulfilled_eq H.
    + split; [apply sameVariant_refl | auto].
    + split; [unfold sameVariant; simpl; repeat split | simpl; auto].
  - fulfilled_eq H. split; [apply sameVariant_refl | auto].
Qed.

(** The warnings left by the funds check on the default annotation. *)
Lemma checkFunds_default chainService net transaction now a1 :
  checkFunds chainService net transaction (defaultAnnotation now) = Fulfilled a1 ->
  match truthy (gasLimit transaction), truthy (maxFeePerGas transaction),
        truthy (maxPriorityFeePerGas transaction) with
  | Some g, Some f, Some _ =>
      exists bal,
        getLatestBaseAccountBalance chainService
          {| address := from transaction; network := net |} = Fulfilled bal
        /\ warnings a1
           = if g * f + valueOrZero transaction >? amount (balance_assetAmount bal)
             then Some [insufficient_funds] else None
  | _, _, _ => warnings a1 = None
  end.
Proof.
  unfold checkFunds. intros H.
  destruct (truthy (gasLimit transaction)) as [g |];
    [destruct (truthy (maxFeePerGas transaction)) as [f |];
     [destruct (truthy (maxPriorityFeePerGas transaction)) as [p |] |] |].
  2-4: fulfilled_eq H; reflexivity.
  split_await H. cbv zeta in H. exists v. split; [exact Hp |].
  destruct (g * f + valueOrZero transaction >? _); fulfilled_eq H; reflexivity.
Qed.

Lemma checkFunds_no_send_to_token chainService net transaction now a1 :
  checkFunds chainService net transaction (defaultAnnotation now) = Fulfilled a1 ->
  ~ In send_to_token (warningList a1).
Proof.
  intros H. apply checkFunds_frame in H.
  destruct H as (_ & _ & _ & [Hw | Hw]); unfold warningList; rewrite Hw; simpl.
  - tauto.
  - intros [E | []]. discriminate E.
Qed.

(** Until the classification the annotation is the default one, but for
    its warnings and block timestamp. *)
Lemma prefix_sameVariant chainService net transaction now a1 block a2 :
  checkFunds chainService net transaction (defaultAnnotation now) = Fulfilled a1 ->
  resolveBlock chainService net transaction a1 = Fulfilled (block, a2) ->
  sameVariant (defaultAnnotation now) a2 /\ warnings a2 = warnings a1
  /\ subannotations a2 = None.
Proof.
  intros H1 H2. apply checkFunds_frame in H1. apply resolveBlock_frame in H2.
  destruct H1 as (V1 & _ & S1 & _). destruct H2 as (V2 & W2 & S2 & _).
  split; [| split; [exact W2 | rewrite S2, S1; reflexivity]].
  unfold sameVariant in *. intuition congruence.
Qed.

(** *** The branches of the classification *)

Lemma callData_None (i : Nullable string) :
  callData i = None <-> i = undefined \/ i = null \/ i = defined "0x".
Proof.
  split.
  - destruct i as [| | s]; simpl; auto.
    destruct (String.eqb s "0x") eqn:E; [| discriminate].
    apply String.eqb_eq in E. subst. auto.
  - intros [-> | [-> | ->]]; reflexivity.
Qed.

Lemma classify_noData indexingService nameService net transaction desiredDecimals a a3 to_ :
  to transaction = Some to_ ->
  callData (input transaction) = None ->
  classify indexingService nameService net transaction desiredDecimals a = Fulfilled a3 ->
  exists r,
    lookUpName nameService {| address := to_; network := net |} = Fulfilled r
    /\ a3 = annotateNoData net transaction desiredDecimals to_ (option_map name r) a.
Proof.
  unfold classify. intros -> -> H. split_await H.
  unfold lookUpNameOf in Hp. split_await Hp.
  fulfilled_eq Hp. fulfilled_eq H. exists v0. split; [assumption | reflexivity].
Qed.

Lemma classify_transfer
    indexingService nameService net transaction desiredDecimals a to_ input_ assets
    matching erc20Tx argFrom argTo argAmount :
  to transaction = Some to_ ->
  callData (input transaction) = Some input_ ->
  getCachedAssets indexingService net = Fulfilled assets ->
  findMatchingFungibleAsset assets to_ = Some matching ->
  ERC20.parseERC20Tx input_ = Some erc20Tx ->
  transferArgs erc20Tx = Some (argFrom, argTo, argAmount) ->
  classify indexingService nameService net transaction desiredDecimals a
  = annotateERC20Transfer nameService net transaction desiredDecimals to_ matching
                          argFrom argTo argAmount a.
Proof.
  unfold classify. intros -> -> -> Hm -> Ha. simpl. rewrite Hm.
  destruct erc20Tx; simpl in Ha; try discriminate Ha;
    injection Ha as <- <- <-; reflexivity.
Qed.

Lemma annotateERC20Transfer_result
    nameService net transaction desiredDecimals to_ matching argFrom argTo argAmount a a3 :
  annotateERC20Transfer nameService net transaction desiredDecimals to_ matching
                        argFrom argTo argAmount a = Fulfilled a3 ->
  type a3 = asset_transfer
  /\ recipientAddress a3 = Some argTo
  /\ senderAddress a3
     = Some match argFrom with Some f => f | None => from transaction end
  /\ assetAmount a3
     = Some (enrichAssetAmountWithDecimalValues
               {| asset := matching; amount := argAmount |} desiredDecimals)
  /\ warnings a3
     = if sameEVMAddress argTo to_ then Some [send_to_token] else warnings a.
Proof.
  unfold annotateERC20Transfer. intros H. split_await H. cbv zeta in H.
  destruct (sameEVMAddress argTo to_); fulfilled_eq H; simpl; repeat split.
Qed.

Lemma parseERC20Tx_callData (input_ : string) erc20Tx :
  ERC20.parseERC20Tx input_ = Some erc20Tx ->
  callData (defined input_) = Some input_.
Proof.
  simpl. destruct (String.eqb input_ "0x") eqn:E; [| reflexivity].
  apply String.eqb_eq in E. subst. intros H. vm_compute in H. discriminate H.
Qed.

(** ** Token transfers decoded from call data *)

(** C5: a transaction sent to a catalog asset whose call data decodes as
    transfer or transferFrom is annotated as an asset-transfer; its
    recipient is the decoded [to], its sender the decoded [from] when there
    is one and the transaction's sender otherwise, and its amount is the
    decoded amount in the matched asset, with decimal amount
    amount / 10^decimals. *)
Theorem erc20_transfer_annotation
    chainService indexingService nameService now net transaction desiredDecimals
    to_ input_ assets matching erc20Tx argFrom argTo argAmount ann :
  to transaction = Some to_ ->
  input transaction = defined input_ ->
  getCachedAssets indexingService net = Fulfilled assets ->
  findMatchingFungibleAsset assets to_ = Some matching ->
  ERC20.parseERC20Tx input_ = Some erc20Tx ->
  transferArgs erc20Tx = Some (argFrom, argTo, argAmount) ->
  resolveTransactionAnnotation chainService indexingService nameService now net
                               transaction desiredDecimals = Fulfilled ann ->
  type ann = asset_transfer
  /\ recipientAddress ann = Some argTo
  /\ senderAddress ann
     = Some match argFrom with Some f => f | None => from transaction end
  /\ exists ea,
       assetAmount ann = Some ea
       /\ ea_asset ea = matching
       /\ ea_amount ea = argAmount
       /\ (decimalAmount ea
           == inject_Z argAmount / inject_Z (10 ^ decimals matching))%Q.
Proof.
  intros Hto Hin Hassets Hmatch Hparse Hargs H.
  apply resolveTransactionAnnotation_stages in H.
  destruct H as (a1 & block & a2 & a3 & _ & _ & H3 & H4).
  assert (Hcd : callData (input transaction) = Some input_)
    by (rewrite Hin; eapply parseERC20Tx_callData; eassumption).
  rewrite (classify_transfer _ _ _ _ _ _ _ _ _ _ _ _ _ _
             Hto Hcd Hassets Hmatch Hparse Hargs) in H3.
  apply annotateERC20Transfer_result in H3.
  destruct H3 as (Ht & Hr & Hs & Ha & _).
  apply resolveSubannotations_frame in H4. destruct H4 as (V & _).
  unfold sameVariant in V.
  destruct V as (Vt & _ & _ & _ & Vs & Vr & _ & Va & _).
  rewrite <- Vt, <- Vs, <- Vr, <- Va.
  repeat (split; [assumption |]).
  eexists. split; [exact Ha |]. simpl.
  split; [reflexivity | split; [reflexivity | apply Qeq_refl]].
Qed.

Lemma erc20_transfer_annotation_witness :
  exists ann,
    resolveTransactionAnnotation (Sample.chain 0) Sample.indexing Sample.names 42
                                 Sample.mainnet Sample.daiTransferFrom 2
    = Fulfilled ann
    /\ type ann = asset_transfer
    /\ recipientAddress ann = Some Sample.bob
    /\ senderAddress ann = Some Sample.alice
    /\ exists ea,
         assetAmount ann = Some ea
         /\ ea_asset ea = Sample.DAI
         /\ ea_amount ea = 7
         /\ (decimalAmount ea == inject_Z 7 / inject_Z (10 ^ 18))%Q.
Proof.
  eexists. split; [vm_compute; reflexivity |].
  apply (erc20_transfer_annotation
           (Sample.chain 0) Sample.indexing Sample.names 42 Sample.mainnet
           Sample.daiTransferFrom 2 Sample.daiAddress Sample.transferFromAliceToBob
           Sample.catalog Sample.DAI
           (transferFrom Sample.alice Sample.bob 7) (Some Sample.alice) Sample.bob 7);
    vm_compute; reflexivity.
Defined.

(** C7: for a transfer or transferFrom sent to a catalog asset, the
    warnings contain send-to-token exactly when the decoded recipient is,
    up to case, the contract address of the token itself. *)
Theorem send_to_token_warning
    chainService indexingService nameService now net transaction desiredDecimals
    to_ input_ assets matching contract erc20Tx argFrom argTo argAmount ann :
  to transaction = Some to_ ->
  input transaction = defined input_ ->
  getCachedAssets indexingService net = Fulfilled assets ->
  findMatchingFungibleAsset assets to_ = Some matching ->
  asset_contractAddress matching = Some contract ->
  ERC20.parseERC20Tx input_ = Some erc20Tx ->
  transferArgs erc20Tx = Some (argFrom, argTo, argAmount) ->
  resolveTransactionAnnotation chainService indexingService nameService now net
                               transaction desiredDecimals = Fulfilled ann ->
  In send_to_token (warningList ann) <-> sameEVMAddress argTo contract = true.
Proof.
  intros Hto Hin Hassets Hmatch Hcontract Hparse Hargs H.
  apply resolveTransactionAnnotation_stages in H.
  destruct H as (a1 & block & a2 & a3 & H1 & H2 & H3 & H4).
  assert (Hcd : callData (input transaction) = Some input_)
    by (rewrite Hin; eapply parseERC20Tx_callData; eassumption).
  rewrite (classify_transfer _ _ _ _ _ _ _ _ _ _ _ _ _ _
             Hto Hcd Hassets Hmatch Hparse Hargs) in H3.
  apply annotateERC20Transfer_result in H3.
  destruct H3 as (_ & _ & _ & _ & Hw).
  apply resolveSubannotations_frame in H4. destruct H4 as (_ & W4 & _).
  destruct (prefix_sameVariant _ _ _ _ _ _ _ H1 H2) as (_ & W2 & _).
  pose proof (checkFunds_no_send_to_token _ _ _ _ _ H1) as Hno.
  destruct (findMatchingFungibleAsset_sound _ _ _ Hmatch) as (_ & c & Hc & Hsame).
  rewrite Hcontract in Hc. injection Hc as <-.
  rewrite <- (sameEVMAddress_trans_r argTo contract to_ Hsame) in Hw.
  unfold warningList in *. rewrite W4, Hw.
  destruct (sameEVMAddress argTo contract).
  - simpl. split; auto.
  - rewrite W2. split; [intros Hin'; contradiction | discriminate].
Qed.

Lemma send_to_token_warning_witness :
  exists ann,
    resolveTransactionAnnotation (Sample.chain 1000000) Sample.indexing
                                 Sample.names 42 Sample.mainnet
                                 Sample.daiTransferToItself 2
    = Fulfilled ann
    /\ (In send_to_token (warningList ann)
        <-> sameEVMAddress Sample.daiAddress
                           "0x6B175474E89094C44Da98b954EedeAC495271d0F" = true).
Proof.
  eexists. split; [vm_compute; reflexivity |].
  apply (send_to_token_warning
           (Sample.chain 1000000) Sample.indexing Sample.names 42 Sample.mainnet
           Sample.daiTransferToItself 2 Sample.daiAddress Sample.transferToDai
           Sample.catalog Sample.DAI "0x6B175474E89094C44Da98b954EedeAC495271d0F"
           (transfer Sample.daiAddress 100) None Sample.daiAddress 100);
    vm_compute; reflexivity.
Defined.

(** ** Transactions without call data *)

(** C6: a transaction with a recipient and with call data that is missing,
    null or "0x" is an asset-transfer in the network's base asset as
    soon as it has a value, zero included, and a contract-interaction named
    after the resolved recipient when it has none. *)
Theorem no_data_annotation
    chainService indexingService nameService now net transaction desiredDecimals
    to_ ann :
  to transaction = Some to_ ->
  input transaction = undefined \/ input transaction = null
  \/ input transaction = defined "0x" ->
  resolveTransactionAnnotation chainService indexingService nameService now net
                               transaction desiredDecimals = Fulfilled ann ->
  exists r,
    lookUpName nameService {| address := to_; network := net |} = Fulfilled r
    /\ match value transaction with
       | Some value_ =>
           type ann = asset_transfer
           /\ assetAmount ann
              = Some (enrichAssetAmountWithDecimalValues
                        {| asset := baseAsset net; amount := value_ |}
                        desiredDecimals)
           /\ senderAddress ann = Some (from transaction)
           /\ recipientAddress ann = Some to_
           /\ recipientName ann = option_map name r
       | None =>
           type ann = contract_interaction
           /\ contractName ann = option_map name r
           /\ assetAmount ann = None
       end.
Proof.
  intros Hto Hin H. apply callData_None in Hin.
  apply resolveTransactionAnnotation_stages in H.
  destruct H as (a1 & block & a2 & a3 & H1 & H2 & H3 & H4).
  destruct (classify_noData _ _ _ _ _ _ _ _ Hto Hin H3) as (r & Hr & ->).
  exists r. split; [exact Hr |].
  apply resolveSubannotations_frame in H4. destruct H4 as (V & _).
  destruct (prefix_sameVariant _ _ _ _ _ _ _ H1 H2) as (V2 & _).
  unfold sameVariant in V, V2.
  destruct V as (Vt & _ & Vc & _ & Vs & Vr & Vn & Va & _).
  destruct V2 as (Dt & _ & _ & _ & _ & _ & _ & Da & _).
  rewrite <- Vt, <- Vc, <- Vs, <- Vr, <- Vn, <- Va.
  unfold annotateNoData. destruct (value transaction) as [value_ |]; simpl.
  - repeat split.
  - rewrite <- Dt, <- Da. simpl. repeat split.
Qed.

Lemma no_data_annotation_witness :
  (exists ann,
     resolveTransactionAnnotation (Sample.chain 1000000) Sample.indexing
                                  Sample.names 42 Sample.mainnet
                                  (Sample.ethSend (Some 0) None) 2
     = Fulfilled ann
     /\ type ann = asset_transfer
     /\ (exists ea, assetAmount ann = Some ea /\ ea_asset ea = Sample.ETH)
     /\ recipientName ann = Some "bob.eth")
  /\ (exists ann,
        resolveTransactionAnnotation (Sample.chain 1000000) Sample.indexing
                                     Sample.names 42 Sample.mainnet
                                     (Sample.ethSend None None) 2
        = Fulfilled ann
        /\ type ann = contract_interaction
        /\ contractName ann = Some "bob.eth").
Proof.
  split; eexists; (split; [vm_compute; reflexivity |]).
  - destruct (no_data_annotation
                (Sample.chain 1000000) Sample.indexing Sample.names 42
                Sample.mainnet (Sample.ethSend (Some 0) None) 2 Sample.bob _
                eq_refl (or_intror (or_intror eq_refl)) eq_refl)
      as (r & Hr & Ht & Ha & _ & _ & Hn).
    vm_compute in Hr. injection Hr as <-.
    split; [exact Ht | split; [eexists; split; [exact Ha | reflexivity] | exact Hn]].
  - destruct (no_data_annotation
                (Sample.chain 1000000) Sample.indexing Sample.names 42
                Sample.mainnet (Sample.ethSend None None) 2 Sample.bob _
                eq_refl (or_intror (or_intror eq_refl)) eq_refl)
      as (r & Hr & Ht & Hc & _).
    vm_compute in Hr. injection Hr as <-.
    split; [exact Ht | exact Hc].
Defined.

(** ** Warnings *)

(** Takes a fulfilled run in hypothesis [H] apart, one case per path. *)
Ltac break_run H :=
  repeat match type of H with
         | await _ _ = Fulfilled _ => split_await H
         | Fulfilled _ = Fulfilled _ => fulfilled_eq H
         | Rejected _ = Fulfilled _ => discriminate H
         | context [match ?x with _ => _ end] => destruct x eqn:?
         | context [if ?x then _ else _] => destruct x eqn:?
         | _ => progress cbv zeta in H
         end.

(** The classification changes the warnings in one case only: the
    assignment of [send_to_token]. *)
Lemma classify_frame
    indexingService nameService net transaction desiredDecimals a a3 :
  classify indexingService nameService net transaction desiredDecimals a
  = Fulfilled a3 ->
  timestamp a3 = timestamp a /\ blockTimestamp a3 = blockTimestamp a
  /\ subannotations a3 = subannotations a
  /\ (warnings a3 = warnings a \/ warnings a3 = Some [send_to_token]).
Proof.
  unfold classify, annotateERC20Transfer, annotateERC20Approval,
    annotateContractInteraction, annotateNoData.
  intros H. break_run H; try destruct (value transaction); simpl; auto.
Qed.

Lemma truthy_Some (x : option Z) (v : Z) :
  x = Some v -> v <> 0 -> truthy x = Some v.
Proof.
  intros -> Hv. unfold truthy. destruct (v =? 0) eqn:E; [| reflexivity].
  apply Z.eqb_eq in E. contradiction.
Qed.

Lemma truthy_zero (x : option Z) : x = Some 0 -> truthy x = None.
Proof. intros ->. reflexivity. Qed.

(** C3, as the code has it: for a request whose gasLimit, maxFeePerGas and
    maxPriorityFeePerGas are all present and nonzero, and whose annotation
    does not carry send-to-token, the warnings contain insufficient-funds
    exactly when gasLimit * maxFeePerGas + value (0 when the value is
    missing) exceeds the fetched balance of the sender. *)
Theorem insufficient_funds_warning
    chainService indexingService nameService now net transaction desiredDecimals
    gasLimit_ maxFeePerGas_ maxPriorityFeePerGas_ bal ann :
  gasLimit transaction = Some gasLimit_ -> gasLimit_ <> 0 ->
  maxFeePerGas transaction = Some maxFeePerGas_ -> maxFeePerGas_ <> 0 ->
  maxPriorityFeePerGas transaction = Some maxPriorityFeePerGas_ ->
  maxPriorityFeePerGas_ <> 0 ->
  getLatestBaseAccountBalance chainService
    {| address := from transaction; network := net |} = Fulfilled bal ->
  resolveTransactionAnnotation chainService indexingService nameService now net
                               transaction desiredDecimals = Fulfilled ann ->
  ~ In send_to_token (warningList ann) ->
  (In insufficient_funds (warningList ann)
   <-> gasLimit_ * maxFeePerGas_ + valueOrZero transaction
       > amount (balance_assetAmount bal)).
Proof.
  intros Hg Hg0 Hf Hf0 Hp Hp0 Hbal H Hno.
  apply resolveTransactionAnnotation_stages in H.
  destruct H as (a1 & block & a2 & a3 & H1 & H2 & H3 & H4).
  pose proof (checkFunds_default _ _ _ _ _ H1) as W1.
  rewrite (truthy_Some _ _ Hg Hg0), (truthy_Some _ _ Hf Hf0),
    (truthy_Some _ _ Hp Hp0) in W1.
  destruct W1 as (bal' & Hbal' & W1). rewrite Hbal in Hbal'.
  injection Hbal' as <-.
  destruct (prefix_sameVariant _ _ _ _ _ _ _ H1 H2) as (_ & W2 & _).
  apply classify_frame in H3. destruct H3 as (_ & _ & _ & W3).
  apply resolveSubannotations_frame in H4. destruct H4 as (_ & W4 & _).
  unfold warningList in *. rewrite W4 in *.
  destruct W3 as [W3 | W3]; rewrite W3 in *.
  - rewrite W2, W1.
    destruct (gasLimit_ * maxFeePerGas_ + valueOrZero transaction
              >? amount (balance_assetAmount bal)) eqn:E.
    + apply Z.gtb_gt in E. simpl. split; auto.
    + split; [intros [] |]. intros Hgt. apply Z.gtb_gt in Hgt. congruence.
  - exfalso. apply Hno. left. reflexivity.
Qed.

Lemma insufficient_funds_warning_witness :
  exists ann,
    resolveTransactionAnnotation (Sample.chain 100) Sample.indexing Sample.names 42
                                 Sample.mainnet (Sample.ethSend (Some 5) (Some 10)) 2
    = Fulfilled ann
    /\ (In insufficient_funds (warningList ann) <-> 21000 * 10 + 5 > 100).
Proof.
  eexists. split; [vm_compute; reflexivity |].
  apply (insufficient_funds_warning
           (Sample.chain 100) Sample.indexing Sample.names 42 Sample.mainnet
           (Sample.ethSend (Some 5) (Some 10)) 2 21000 10 1
           {| balance_assetAmount := {| asset := Sample.ETH; amount := 100 |} |});
    try reflexivity; try lia.
  vm_compute. intros [E | []]. discriminate E.
Defined.

(** C3 as it is worded fails on a request that carries a zero fee field:
    with a value of 5 and a balance of 1 the sum exceeds the balance, and
    no warning is attached. *)
Lemma insufficient_funds_zero_fee_counterexample :
  ~ fundsWarningIffShort (Sample.chain 1) Sample.indexing Sample.names 42
                         Sample.mainnet (Sample.ethSend (Some 5) (Some 0)) 2.
Proof.
  unfold fundsWarningIffShort. intros H.
  specialize (H 21000 0 1
                {| balance_assetAmount := {| asset := Sample.ETH; amount := 1 |} |}
                _ eq_refl eq_refl eq_refl eq_refl eq_refl).
  destruct H as [_ H]. vm_compute in H.
  destruct (H eq_refl) as [].
Qed.

(** The funds warning does not survive the assignment of send-to-token: a
    request that cannot pay its fee and sends a token to the contract of
    the token ends with the single warning send-to-token. *)
Lemma send_to_token_replaces_insufficient_funds :
  exists ann,
    resolveTransactionAnnotation (Sample.chain 5) Sample.indexing Sample.names 42
                                 Sample.mainnet Sample.daiTransferToItself 2
    = Fulfilled ann
    /\ 21000 * 10 + valueOrZero Sample.daiTransferToItself > 5
    /\ warnings ann = Some [send_to_token].
Proof.
  eexists. split; [vm_compute; reflexivity |]. split; [vm_compute |]; reflexivity.
Qed.

(** C10: when gasLimit, maxFeePerGas or maxPriorityFeePerGas is present and
    zero the funds check is skipped: the run is the same whatever the
    balance fetch would answer, a rejection included, and no
    insufficient-funds warning is attached. *)
Theorem zero_gas_field_skips_funds_check
    chainService indexingService nameService now net transaction desiredDecimals :
  gasLimit transaction = Some 0 \/ maxFeePerGas transaction = Some 0
  \/ maxPriorityFeePerGas transaction = Some 0 ->
  (forall fetch,
     resolveTransactionAnnotation (withBalanceFetch fetch chainService)
                                  indexingService nameService now net transaction
                                  desiredDecimals
     = resolveTransactionAnnotation chainService indexingService nameService now
                                    net transaction desiredDecimals)
  /\ (forall ann,
        resolveTransactionAnnotation chainService indexingService nameService now
                                     net transaction desiredDecimals = Fulfilled ann ->
        ~ In insufficient_funds (warningList ann)).
Proof.
  intros Hzero.
  assert (Hskip : forall c a, checkFunds c net transaction a = Fulfilled a).
  { intros c a. unfold checkFunds.
    destruct Hzero as [Hz | [Hz | Hz]]; rewrite (truthy_zero _ Hz).
    - reflexivity.
    - destruct (truthy (gasLimit transaction)); reflexivity.
    - destruct (truthy (gasLimit transaction));
        [destruct (truthy (maxFeePerGas transaction)) |]; reflexivity. }
  split.
  - intros fetch. unfold resolveTransactionAnnotation.
    rewrite !Hskip. reflexivity.
  - intros ann H.
    apply resolveTransactionAnnotation_stages in H.
    destruct H as (a1 & block & a2 & a3 & H1 & H2 & H3 & H4).
    destruct (prefix_sameVariant _ _ _ _ _ _ _ H1 H2) as (_ & W2 & _).
    rewrite Hskip in H1. fulfilled_eq H1.
    apply classify_frame in H3. destruct H3 as (_ & _ & _ & W3).
    apply resolveSubannotations_frame in H4. destruct H4 as (_ & W4 & _).
    unfold warningList. rewrite W4.
    destruct W3 as [W3 | W3]; rewrite W3.
    + rewrite W2. simpl. tauto.
    + intros [E | []]. discriminate E.
Qed.

Lemma zero_gas_field_skips_funds_check_witness :
  resolveTransactionAnnotation
    (withBalanceFetch (fun _ => Rejected "balance unavailable") (Sample.chain 1))
    Sample.indexing Sample.names 42 Sample.mainnet
    (Sample.ethSend (Some 5) (Some 0)) 2
  = resolveTransactionAnnotation (Sample.chain 1) Sample.indexing Sample.names 42
      Sample.mainnet (Sample.ethSend (Some 5) (Some 0)) 2
  /\ exists ann,
       resolveTransactionAnnotation (Sample.chain 1) Sample.indexing Sample.names 42
         Sample.mainnet (Sample.ethSend (Some 5) (Some 0)) 2 = Fulfilled ann
       /\ ~ In insufficient_funds (warningList ann).
Proof.
  destruct (zero_gas_field_skips_funds_check
              (Sample.chain 1) Sample.indexing Sample.names 42 Sample.mainnet
              (Sample.ethSend (Some 5) (Some 0)) 2 (or_intror (or_introl eq_refl)))
    as [Hsame Hnone].
  split; [apply Hsame |].
  eexists. split; [vm_compute; reflexivity |]. apply Hnone. vm_compute. reflexivity.
Defined.

(** ** Sub-annotations from logs *)

Lemma annotationsFromLogs_result
    chainService indexingService nameService logs_ net desiredDecimals resolvedTime
    block subs :
  annotationsFromLogs chainService indexingService nameService logs_ net
                      desiredDecimals resolvedTime block = Fulfilled subs ->
  exists assets accounts,
    getCachedAssets indexingService net = Fulfilled assets
    /\ getAccountsToTrack chainService = Fulfilled accounts
    /\ subs
       = flat_map
           (subannotationOfTransfer
              assets
              (lookedUpNames nameService net
                 (getERC20LogsForAddresses (tokenTransferLogsOf logs_)
                                           (map address accounts)))
              desiredDecimals resolvedTime block)
           (tokenTransferLogsOf logs_).
Proof.
  unfold annotationsFromLogs. intros H. split_await H. split_await H.
  exists v, v0. repeat split; try assumption.
  simpl in H. fulfilled_eq H. reflexivity.
Qed.

(** The log pass rejects only when the catalog or the tracked accounts
    cannot be fetched: the name lookups play no part in it. *)
Lemma annotationsFromLogs_fulfilled
    chainService indexingService nameService logs_ net desiredDecimals resolvedTime
    block assets accounts :
  getCachedAssets indexingService net = Fulfilled assets ->
  getAccountsToTrack chainService = Fulfilled accounts ->
  exists subs,
    annotationsFromLogs chainService indexingService nameService logs_ net
                        desiredDecimals resolvedTime block = Fulfilled subs.
Proof.
  intros Ha Hc. unfold annotationsFromLogs. rewrite Ha, Hc. simpl.
  eexists. reflexivity.
Qed.

Lemma resolveSubannotations_list
    chainService indexingService nameService net transaction desiredDecimals block
    a ann :
  subannotations a = None ->
  resolveSubannotations chainService indexingService nameService net transaction
                        desiredDecimals block a = Fulfilled ann ->
  match logs transaction with
  | Some logs_ =>
      annotationsFromLogs chainService indexingService nameService logs_ net
                          desiredDecimals (timestamp a) block
      = Fulfilled (subannotationList ann)
  | None => subannotationList ann = []
  end.
Proof.
  unfold resolveSubannotations, subannotationList. intros Hs H.
  destruct (logs transaction) as [logs_ |].
  - split_await H. destruct v; fulfilled_eq H; simpl.
    + rewrite Hs. exact Hp.
    + exact Hp.
  - fulfilled_eq H. rewrite Hs. reflexivity.
Qed.

(** The annotation handed to the log pass has no sub-annotations yet. *)
Lemma classified_no_subannotations
    chainService indexingService nameService now net transaction desiredDecimals
    a1 block a2 a3 :
  checkFunds chainService net transaction (defaultAnnotation now) = Fulfilled a1 ->
  resolveBlock chainService net transaction a1 = Fulfilled (block, a2) ->
  classify indexingService nameService net transaction desiredDecimals a2
  = Fulfilled a3 ->
  subannotations a3 = None /\ timestamp a3 = now.
Proof.
  intros H1 H2 H3.
  destruct (prefix_sameVariant _ _ _ _ _ _ _ H1 H2) as (V & _ & S2).
  apply classify_frame in H3. destruct H3 as (T3 & _ & S3 & _).
  destruct V as (_ & Vt & _). simpl in Vt.
  split; congruence.
Qed.

(** What the log pass returned, seen from the entry point. *)
Lemma resolveTransactionAnnotation_subannotations
    chainService indexingService nameService now net transaction desiredDecimals
    logs_ ann :
  logs transaction = Some logs_ ->
  resolveTransactionAnnotation chainService indexingService nameService now net
                               transaction desiredDecimals = Fulfilled ann ->
  exists block,
    annotationsFromLogs chainService indexingService nameService logs_ net
                        desiredDecimals now block
    = Fulfilled (subannotationList ann).
Proof.
  intros Hlogs H.
  apply resolveTransactionAnnotation_stages in H.
  destruct H as (a1 & block & a2 & a3 & H1 & H2 & H3 & H4).
  destruct (classified_no_subannotations _ _ _ _ _ _ _ _ _ _ _ H1 H2 H3)
    as (S3 & T3).
  pose proof (resolveSubannotations_list _ _ _ _ _ _ _ _ _ S3 H4) as Hl.
  rewrite Hlogs, T3 in Hl. exists block. exact Hl.
Qed.

(** One sub-annotation per transfer that matches a catalog asset, in the
    order of the transfers. *)
Lemma subannotations_describe_matching
    assets namesByAddress desiredDecimals resolvedTime block transfers :
  Forall2 (describesTransfer assets desiredDecimals)
          (flat_map (subannotationOfTransfer assets namesByAddress desiredDecimals
                                             resolvedTime block) transfers)
          (filter (matchesCatalogAsset assets) transfers).
Proof.
  induction transfers as [| l rest IH]; simpl; [constructor |].
  unfold matchesCatalogAsset at 1, subannotationOfTransfer at 1.
  destruct (findMatchingFungibleAsset assets (xfer_contractAddress l)) as [a |] eqn:E.
  - simpl. constructor; [| exact IH].
    unfold describesTransfer. simpl. repeat split.
    exists a. split; [exact E | reflexivity].
  - exact IH.
Qed.

(** C1, as the code has it: the sub-annotations are, one for one, the
    parsed transfers whose contract address matches a catalog asset,
    whether or not they touch a tracked account. *)
Theorem subannotations_per_catalog_transfer
    chainService indexingService nameService now net transaction desiredDecimals
    logs_ ann :
  logs transaction = Some logs_ ->
  resolveTransactionAnnotation chainService indexingService nameService now net
                               transaction desiredDecimals = Fulfilled ann ->
  exists assets,
    getCachedAssets indexingService net = Fulfilled assets
    /\ Forall2 (describesTransfer assets desiredDecimals)
               (subannotationList ann)
               (filter (matchesCatalogAsset assets) (tokenTransferLogsOf logs_)).
Proof.
  intros Hlogs H.
  destruct (resolveTransactionAnnotation_subannotations _ _ _ _ _ _ _ _ _ Hlogs H)
    as (block & Hsubs).
  apply annotationsFromLogs_result in Hsubs.
  destruct Hsubs as (assets & accounts & Ha & _ & ->).
  exists assets. split; [exact Ha | apply subannotations_describe_matching].
Qed.

Lemma subannotations_per_catalog_transfer_witness :
  exists ann,
    resolveTransactionAnnotation
      (Sample.chain 0) Sample.indexing Sample.names 42 Sample.mainnet
      (Sample.minedCall [Sample.transferAliceBob; Sample.unrelatedLog;
                         Sample.depositAlice]) 2
    = Fulfilled ann
    /\ List.length (subannotationList ann) = 2%nat
    /\ exists assets,
         getCachedAssets Sample.indexing Sample.mainnet = Fulfilled assets
         /\ Forall2 (describesTransfer assets 2)
                    (subannotationList ann)
                    (filter (matchesCatalogAsset assets)
                            (tokenTransferLogsOf
                               [Sample.transferAliceBob; Sample.unrelatedLog;
                                Sample.depositAlice])).
Proof.
  eexists. split; [vm_compute; reflexivity |]. split; [reflexivity |].
  apply (subannotations_per_catalog_transfer
           (Sample.chain 0) Sample.indexing Sample.names 42 Sample.mainnet
           (Sample.minedCall [Sample.transferAliceBob; Sample.unrelatedLog;
                              Sample.depositAlice]) 2);
    vm_compute; reflexivity.
Defined.

(** C1 as it is worded fails on a transfer between two accounts that are
    not tracked: bob's transfer of DAI to carol gets its sub-annotation
    although alice is the only tracked account. *)
Lemma untracked_transfer_counterexample :
  exists ann,
    resolveTransactionAnnotation
      (Sample.chain 0) Sample.indexing Sample.names 42 Sample.mainnet
      (Sample.minedCall [Sample.transferBobCarol]) 2
    = Fulfilled ann
    /\ getAccountsToTrack (Sample.chain 0)
       = Fulfilled [ {| address := Sample.alice; network := Sample.mainnet |} ]
    /\ List.length (subannotationList ann) = 1%nat
    /\ ~ describeTrackedTransfers [Sample.alice] Sample.catalog 2
           (subannotationList ann) [Sample.transferBobCarol].
Proof.
  eexists. split; [vm_compute; reflexivity |].
  split; [reflexivity |]. split; [reflexivity |].
  unfold describeTrackedTransfers.
  replace (filter _ (tokenTransferLogsOf [Sample.transferBobCarol]))
    with (@nil ERC20TransferLog) by (vm_compute; reflexivity).
  intros H. inversion H.
Qed.

(** ** Order of the sub-annotations *)

(** The parsers keep the order of the logs: parsing a list of logs in two
    parts gives the two lists of transfers one after the other. *)
Lemma filterMap_app {A B : Type} (f : A -> option B) (xs ys : list A) :
  filterMap f (xs ++ ys)%list = (filterMap f xs ++ filterMap f ys)%list.
Proof.
  induction xs as [| x rest IH]; simpl; [reflexivity |].
  destruct (f x); simpl; rewrite IH; reflexivity.
Qed.

(** C4, as the code has it: the sub-annotations of the standard transfer
    logs come first, in the order of those logs, and the sub-annotations of
    the wrapped deposit and withdrawal logs follow, in the order of those
    logs. *)
Theorem subannotations_ordered_by_kind
    chainService indexingService nameService now net transaction desiredDecimals
    logs_ ann :
  logs transaction = Some logs_ ->
  resolveTransactionAnnotation chainService indexingService nameService now net
                               transaction desiredDecimals = Fulfilled ann ->
  exists assets fromTransfers fromWrapped,
    getCachedAssets indexingService net = Fulfilled assets
    /\ subannotationList ann = (fromTransfers ++ fromWrapped)%list
    /\ Forall2 (describesTransfer assets desiredDecimals) fromTransfers
               (filter (matchesCatalogAsset assets)
                       (filterMap ERC20.decodeTransferLog logs_))
    /\ Forall2 (describesTransfer assets desiredDecimals) fromWrapped
               (filter (matchesCatalogAsset assets)
                       (filterMap WrappedAsset.decodeWrappedLog logs_)).
Proof.
  intros Hlogs H.
  destruct (resolveTransactionAnnotation_subannotations _ _ _ _ _ _ _ _ _ Hlogs H)
    as (block & Hsubs).
  apply annotationsFromLogs_result in Hsubs.
  destruct Hsubs as (assets & accounts & Ha & _ & Hs).
  unfold tokenTransferLogsOf at 2 in Hs. rewrite flat_map_app in Hs.
  exists assets. eexists. eexists.
  split; [exact Ha |]. split; [exact Hs |].
  split; apply subannotations_describe_matching.
Qed.

Lemma subannotations_ordered_by_kind_witness :
  exists ann,
    resolveTransactionAnnotation
      (Sample.chain 0) Sample.indexing Sample.names 42 Sample.mainnet
      (Sample.minedCall [Sample.transferAliceBob; Sample.unrelatedLog;
                         Sample.depositAlice]) 2
    = Fulfilled ann
    /\ map recipientAddress (subannotationList ann)
       = [Some Sample.bob; Some Sample.alice]
    /\ exists assets fromTransfers fromWrapped,
         getCachedAssets Sample.indexing Sample.mainnet = Fulfilled assets
         /\ subannotationList ann = (fromTransfers ++ fromWrapped)%list
         /\ Forall2 (describesTransfer assets 2) fromTransfers
                    (filter (matchesCatalogAsset assets)
                            (filterMap ERC20.decodeTransferLog
                               [Sample.transferAliceBob; Sample.unrelatedLog;
                                Sample.depositAlice]))
         /\ Forall2 (describesTransfer assets 2) fromWrapped
                    (filter (matchesCatalogAsset assets)
                            (filterMap WrappedAsset.decodeWrappedLog
                               [Sample.transferAliceBob; Sample.unrelatedLog;
                                Sample.depositAlice])).
Proof.
  eexists. split; [vm_compute; reflexivity |]. split; [reflexivity |].
  apply (subannotations_ordered_by_kind
           (Sample.chain 0) Sample.indexing Sample.names 42 Sample.mainnet
           (Sample.minedCall [Sample.transferAliceBob; Sample.unrelatedLog;
                              Sample.depositAlice]) 2);
    vm_compute; reflexivity.
Defined.

(** C4 as it is worded fails when a wrapped deposit precedes a standard
    transfer: the deposit to alice is logged first and annotated last. *)
Lemma interleaved_logs_counterexample :
  exists ann,
    resolveTransactionAnnotation
      (Sample.chain 0) Sample.indexing Sample.names 42 Sample.mainnet
      (Sample.minedCall [Sample.depositAlice; Sample.transferAliceBob]) 2
    = Fulfilled ann
    /\ map recipientAddress (subannotationList ann)
       = [Some Sample.bob; Some Sample.alice]
    /\ map xfer_recipientAddress
           (transfersInLogOrder [Sample.depositAlice; Sample.transferAliceBob])
       = [Sample.alice; Sample.bob]
    /\ ~ describeTransfersInLogOrder Sample.catalog 2 (subannotationList ann)
           [Sample.depositAlice; Sample.transferAliceBob].
Proof.
  eexists. split; [vm_compute; reflexivity |].
  split; [reflexivity |]. split; [vm_compute; reflexivity |].
  unfold describeTransfersInLogOrder. intros H.
  assert (Hmap : forall subs transfers,
             Forall2 (describesTransfer Sample.catalog 2) subs transfers ->
             map recipientAddress subs
             = map (fun l => Some (xfer_recipientAddress l)) transfers).
  { intros subs transfers F. induction F as [| sub l subs' ls' Hd _ IH]; simpl.
    - reflexivity.
    - destruct Hd as (_ & _ & Hrec & _). rewrite Hrec, IH. reflexivity. }
  apply Hmap in H. vm_compute in H. discriminate H.
Qed.

(** ** The type tag and the populated properties *)

Lemma variantFieldsOnly_sameVariant a b :
  sameVariant a b -> variantFieldsOnly a -> variantFieldsOnly b.
Proof.
  unfold sameVariant, variantFieldsOnly.
  intros (Vt & _ & Vc & Vl & Vs & Vr & Vn & Va & Vp & Vq).
  rewrite <- Vt, <- Vc, <- Vl, <- Vs, <- Vr, <- Vn, <- Va, <- Vp, <- Vq.
  exact (fun H => H).
Qed.

Lemma classify_variant
    indexingService nameService now net transaction desiredDecimals a a3 :
  sameVariant (defaultAnnotation now) a ->
  classify indexingService nameService net transaction desiredDecimals a
  = Fulfilled a3 ->
  variantFieldsOnly a3.
Proof.
  unfold sameVariant. simpl.
  intros (Vt & _ & Vc & Vl & Vs & Vr & Vn & Va & Vp & Vq).
  unfold classify, annotateERC20Transfer, annotateERC20Approval,
    annotateContractInteraction, annotateNoData.
  intros H.
  break_run H; try destruct (value transaction);
    unfold variantFieldsOnly; simpl; try rewrite <- Vt;
    repeat split; (congruence || discriminate).
Qed.

Lemma subannotation_variant
    assets namesByAddress desiredDecimals resolvedTime block transfers sub :
  In sub (flat_map (subannotationOfTransfer assets namesByAddress desiredDecimals
                                            resolvedTime block) transfers) ->
  type sub = asset_transfer /\ variantFieldsOnly sub
  /\ subannotations sub = None /\ warnings sub = None.
Proof.
  intros H. apply in_flat_map in H. destruct H as (l & _ & H).
  unfold subannotationOfTransfer in H.
  destruct (findMatchingFungibleAsset assets (xfer_contractAddress l));
    [| contradiction].
  destruct H as [<- | []].
  unfold variantFieldsOnly. simpl. repeat split; discriminate.
Qed.

(** C8: in every annotation that is returned, and in each of its
    sub-annotations, the type tag decides the properties that are set: the
    ones of the variant are there, the ones of the other variants are
    missing. *)
Theorem annotation_fields_follow_type
    chainService indexingService nameService now net transaction desiredDecimals
    ann :
  resolveTransactionAnnotation chainService indexingService nameService now net
                               transaction desiredDecimals = Fulfilled ann ->
  variantFieldsOnly ann
  /\ forall sub, In sub (subannotationList ann) ->
                 type sub = asset_transfer /\ variantFieldsOnly sub
                 /\ subannotations sub = None.
Proof.
  intros H.
  apply resolveTransactionAnnotation_stages in H.
  destruct H as (a1 & block & a2 & a3 & H1 & H2 & H3 & H4).
  destruct (prefix_sameVariant _ _ _ _ _ _ _ H1 H2) as (V2 & _).
  pose proof (classify_variant _ _ _ _ _ _ _ _ V2 H3) as Hv.
  destruct (classified_no_subannotations _ _ _ _ _ _ _ _ _ _ _ H1 H2 H3)
    as (S3 & _).
  pose proof (resolveSubannotations_list _ _ _ _ _ _ _ _ _ S3 H4) as Hl.
  apply resolveSubannotations_frame in H4. destruct H4 as (V4 & _).
  split; [exact (variantFieldsOnly_sameVariant _ _ V4 Hv) |].
  intros sub Hin. destruct (logs transaction) as [logs_ |].
  - apply annotationsFromLogs_result in Hl.
    destruct Hl as (assets & accounts & _ & _ & Hs). rewrite Hs in Hin.
    apply subannotation_variant in Hin. tauto.
  - rewrite Hl in Hin. contradiction.
Qed.

Lemma annotation_fields_follow_type_witness :
  exists ann,
    resolveTransactionAnnotation
      (Sample.chain 0) Sample.indexing Sample.names 42 Sample.mainnet
      (Sample.minedCall [Sample.transferAliceBob; Sample.unrelatedLog;
                         Sample.depositAlice]) 2
    = Fulfilled ann
    /\ type ann = contract_interaction
    /\ variantFieldsOnly ann
    /\ forall sub, In sub (subannotationList ann) ->
                   type sub = asset_transfer /\ variantFieldsOnly sub
                   /\ subannotations sub = None.
Proof.
  eexists. split; [vm_compute; reflexivity |]. split; [reflexivity |].
  apply (annotation_fields_follow_type
           (Sample.chain 0) Sample.indexing Sample.names 42 Sample.mainnet
           (Sample.minedCall [Sample.transferAliceBob; Sample.unrelatedLog;
                              Sample.depositAlice]) 2).
  vm_compute. reflexivity.
Defined.

(** ** The wall clock *)

(** Two awaited runs agree, seen through [g], when their first steps agree
    seen through [h] and their continuations agree on such values. *)
Lemma await_related {A A' B B' : Type} (h : A -> A') (g : B -> B')
    (p1 p2 : Promise A) (k1 k2 : A -> Promise B) :
  mapPromise h p1 = mapPromise h p2 ->
  (forall a b, h a = h b -> mapPromise g (k1 a) = mapPromise g (k2 b)) ->
  mapPromise g (await p1 k1) = mapPromise g (await p2 k2).
Proof.
  intros Hp Hk. destruct p1 as [a | e1], p2 as [b | e2]; simpl in *;
    try discriminate Hp.
  - apply Hk. injection Hp as Hp. exact Hp.
  - injection Hp as ->. reflexivity.
Qed.

(** Replaces two annotations that agree but for the clock by their
    properties. *)
Ltac same_but_clock a b E :=
  destruct a, b; simpl in E; injection E as E; intros; subst.

Lemma checkFunds_clock chainService net transaction a b :
  withoutTimestamp a = withoutTimestamp b ->
  mapPromise withoutTimestamp (checkFunds chainService net transaction a)
  = mapPromise withoutTimestamp (checkFunds chainService net transaction b).
Proof.
  intros E. same_but_clock a b E. unfold checkFunds.
  destruct (truthy (gasLimit transaction)) as [g |];
    [destruct (truthy (maxFeePerGas transaction)) as [f |];
     [destruct (truthy (maxPriorityFeePerGas transaction)) as [p |] |] |];
    simpl; try congruence.
  destruct (getLatestBaseAccountBalance chainService _) as [bal | e]; simpl;
    [| reflexivity].
  destruct (g * f + valueOrZero transaction >? _);
    unfold pushWarning, warningList; simpl; congruence.
Qed.

Lemma resolveBlock_clock chainService net transaction a b :
  withoutTimestamp a = withoutTimestamp b ->
  mapPromise blockAndUnclocked (resolveBlock chainService net transaction a)
  = mapPromise blockAndUnclocked (resolveBlock chainService net transaction b).
Proof.
  intros E. same_but_clock a b E. unfold resolveBlock.
  destruct (truthyString (blockHash transaction)) as [h |]; simpl.
  - destruct (getBlockData chainService net h); simpl;
      unfold blockAndUnclocked; simpl; congruence.
  - unfold blockAndUnclocked; simpl; congruence.
Qed.

Lemma classify_clock
    indexingService nameService net transaction desiredDecimals a b :
  withoutTimestamp a = withoutTimestamp b ->
  mapPromise withoutTimestamp
    (classify indexingService nameService net transaction desiredDecimals a)
  = mapPromise withoutTimestamp
      (classify indexingService nameService net transaction desiredDecimals b).
Proof.
  intros E. same_but_clock a b E.
  unfold classify, annotateERC20Transfer, annotateERC20Approval,
    annotateContractInteraction, annotateNoData, lookUpNameOf, await.
  repeat match goal with
         | |- context [match ?x with _ => _ end] => destruct x eqn:?
         | |- context [if ?x then _ else _] => destruct x eqn:?
         end;
    simpl; congruence.
Qed.

Lemma subannotationOfTransfer_clock
    assets namesByAddress desiredDecimals t1 t2 block transfers :
  map withoutTimestamp
      (flat_map (subannotationOfTransfer assets namesByAddress desiredDecimals
                                         t1 block) transfers)
  = map withoutTimestamp
        (flat_map (subannotationOfTransfer assets namesByAddress desiredDecimals
                                           t2 block) transfers).
Proof.
  induction transfers as [| l rest IH]; simpl; [reflexivity |].
  rewrite !map_app, IH. f_equal.
  unfold subannotationOfTransfer.
  destruct (findMatchingFungibleAsset assets (xfer_contractAddress l)); reflexivity.
Qed.

Lemma annotationsFromLogs_clock
    chainService indexingService nameService logs_ net desiredDecimals t1 t2 block :
  mapPromise (map withoutTimestamp)
    (annotationsFromLogs chainService indexingService nameService logs_ net
                         desiredDecimals t1 block)
  = mapPromise (map withoutTimestamp)
      (annotationsFromLogs chainService indexingService nameService logs_ net
                           desiredDecimals t2 block).
Proof.
  unfold annotationsFromLogs.
  destruct (getCachedAssets indexingService net) as [assets | e]; simpl;
    [| reflexivity].
  destruct (getAccountsToTrack chainService) as [accounts | e]; simpl;
    [| reflexivity].
  f_equal. apply subannotationOfTransfer_clock.
Qed.

Lemma resolveSubannotations_clock
    chainService indexingService nameService net transaction desiredDecimals block
    a b :
  withoutTimestamp a = withoutTimestamp b ->
  mapPromise withoutTimestamp
    (resolveSubannotations chainService indexingService nameService net
                           transaction desiredDecimals block a)
  = mapPromise withoutTimestamp
      (resolveSubannotations chainService indexingService nameService net
                             transaction desiredDecimals block b).
Proof.
  intros E. unfold resolveSubannotations.
  destruct (logs transaction) as [logs_ |]; [| simpl; congruence].
  apply (await_related (map withoutTimestamp) withoutTimestamp).
  - apply annotationsFromLogs_clock.
  - intros s1 s2 Hs. destruct s1, s2; simpl in Hs; try discriminate Hs.
    + simpl. congruence.
    + same_but_clock a b E. simpl. congruence.
Qed.

(** C9: two runs on the same transaction with the same collaborator
    responses return the same outcome, up to the wall-clock timestamp of
    the annotation and of its sub-annotations. *)
Theorem annotation_determined_up_to_clock
    chainService indexingService nameService now1 now2 net transaction
    desiredDecimals :
  mapPromise withoutTimestamp
    (resolveTransactionAnnotation chainService indexingService nameService now1
                                  net transaction desiredDecimals)
  = mapPromise withoutTimestamp
      (resolveTransactionAnnotation chainService indexingService nameService now2
                                    net transaction desiredDecimals).
Proof.
  unfold resolveTransactionAnnotation.
  apply (await_related withoutTimestamp withoutTimestamp).
  { apply checkFunds_clock. reflexivity. }
  intros a1 b1 E1.
  apply (await_related blockAndUnclocked withoutTimestamp).
  { apply resolveBlock_clock. exact E1. }
  intros [block a2] [block' b2] E2. unfold blockAndUnclocked in E2. simpl in E2.
  injection E2 as <- E2.
  apply (await_related withoutTimestamp withoutTimestamp).
  { apply classify_clock. exact E2. }
  intros a3 b3 E3. apply resolveSubannotations_clock. exact E3.
Qed.

(** ** Runs that fulfil *)

Lemma checkFunds_fulfils chainService net transaction a :
  (forall who, isFulfilled (getLatestBaseAccountBalance chainService who) = true) ->
  exists a1, checkFunds chainService net transaction a = Fulfilled a1.
Proof.
  intros Hbal. unfold checkFunds.
  destruct (truthy (gasLimit transaction)) as [g |];
    [destruct (truthy (maxFeePerGas transaction)) as [f |];
     [destruct (truthy (maxPriorityFeePerGas transaction)) as [p |] |] |];
    try (eexists; reflexivity).
  specialize (Hbal {| address := from transaction; network := net |}).
  destruct (getLatestBaseAccountBalance chainService _) as [bal | e];
    [| discriminate Hbal].
  simpl. destruct (g * f + valueOrZero transaction >? _); eexists; reflexivity.
Qed.

Lemma resolveBlock_fulfils chainService net transaction a :
  (forall h, isFulfilled (getBlockData chainService net h) = true) ->
  exists r, resolveBlock chainService net transaction a = Fulfilled r.
Proof.
  intros Hblock. unfold resolveBlock.
  destruct (truthyString (blockHash transaction)) as [h |];
    [| eexists; reflexivity].
  specialize (Hblock h).
  destruct (getBlockData chainService net h); [| discriminate Hblock].
  eexists. reflexivity.
Qed.

Lemma lookUpNameOf_fulfils nameService net addr :
  (forall who, isFulfilled (lookUpName nameService who) = true) ->
  exists n, lookUpNameOf nameService net addr = Fulfilled n.
Proof.
  intros Hname. unfold lookUpNameOf.
  specialize (Hname {| address := addr; network := net |}).
  destruct (lookUpName nameService _); [| discriminate Hname].
  eexists. reflexivity.
Qed.

Lemma classify_fulfils
    indexingService nameService net transaction desiredDecimals a :
  isFulfilled (getCachedAssets indexingService net) = true ->
  (forall who, isFulfilled (lookUpName nameService who) = true) ->
  exists a3,
    classify indexingService nameService net transaction desiredDecimals a
    = Fulfilled a3.
Proof.
  intros Hassets Hname.
  unfold classify, annotateERC20Transfer, annotateERC20Approval,
    annotateContractInteraction.
  destruct (to transaction) as [to_ |]; [| eexists; reflexivity].
  destruct (callData (input transaction)) as [input_ |].
  - destruct (getCachedAssets indexingService net) as [assets | e];
      [| discriminate Hassets].
    simpl.
    destruct (findMatchingFungibleAsset assets to_) as [m |];
      [destruct (ERC20.parseERC20Tx input_) as [[argTo ? | ? argTo ? | sp ?] |] |].
    1-2: destruct (lookUpNameOf_fulfils nameService net argTo Hname) as (n & ->);
      simpl; destruct (sameEVMAddress argTo to_); eexists; reflexivity.
    1: destruct (lookUpNameOf_fulfils nameService net sp Hname) as (n & ->).
    2-3: destruct (lookUpNameOf_fulfils nameService net to_ Hname) as (n & ->).
    all: simpl; eexists; reflexivity.
  - destruct (lookUpNameOf_fulfils nameService net to_ Hname) as (n & ->).
    simpl. eexists. reflexivity.
Qed.

(** When no collaborator rejects, an annotation is returned. *)
Lemma resolveTransactionAnnotation_fulfils
    chainService indexingService nameService now net transaction desiredDecimals :
  (forall who, isFulfilled (getLatestBaseAccountBalance chainService who) = true) ->
  (forall h, isFulfilled (getBlockData chainService net h) = true) ->
  isFulfilled (getAccountsToTrack chainService) = true ->
  isFulfilled (getCachedAssets indexingService net) = true ->
  (forall who, isFulfilled (lookUpName nameService who) = true) ->
  exists ann,
    resolveTransactionAnnotation chainService indexingService nameService now net
                                 transaction desiredDecimals = Fulfilled ann.
Proof.
  intros Hbal Hblock Haccounts Hassets Hname. unfold resolveTransactionAnnotation.
  destruct (checkFunds_fulfils chainService net transaction (defaultAnnotation now)
                               Hbal) as (a1 & ->).
  simpl.
  destruct (resolveBlock_fulfils chainService net transaction a1 Hblock)
    as ([block a2] & ->).
  simpl.
  destruct (classify_fulfils indexingService nameService net transaction
                             desiredDecimals a2 Hassets Hname) as (a3 & ->).
  simpl. unfold resolveSubannotations.
  destruct (logs transaction) as [logs_ |]; [| eexists; reflexivity].
  destruct (getCachedAssets indexingService net) as [assets | e] eqn:Ea;
    [| discriminate Hassets].
  destruct (getAccountsToTrack chainService) as [accounts | e] eqn:Ec;
    [| discriminate Haccounts].
  destruct (annotationsFromLogs_fulfilled
              chainService indexingService nameService logs_ net desiredDecimals
              (timestamp a3) block assets accounts Ea Ec) as (subs & ->).
  simpl. destruct subs; eexists; reflexivity.
Qed.

(** ** Collaborator failures *)

Lemma namesByAddressGet_found (m : NamesByAddress) (key : string) :
  forall found n,
    fold_left (fun found e => if String.eqb (fst e) key then Some (snd e) else found)
              m found = Some n ->
    found = Some n \/ In (key, n) m.
Proof.
  induction m as [| [k v] rest IH]; simpl; intros found n H.
  - left. exact H.
  - apply IH in H. destruct H as [H | H]; [| right; right; exact H].
    destruct (String.eqb k key) eqn:E.
    + apply String.eqb_eq in E. subst k. injection H as ->.
      right. left. reflexivity.
    + left. exact H.
Qed.

Lemma definedNames_In entries k n :
  In (k, n) (definedNames entries) -> In (k, Some n) entries.
Proof.
  unfold definedNames.
  induction entries as [| [k' [n' |]] rest IH]; simpl; intros H.
  - contradiction.
  - destruct H as [H | H]; [left; congruence | right; exact (IH H)].
  - right. exact (IH H).
Qed.

Lemma fulfilledValues_In {A : Type} (ps : list (Promise A)) (v : A) :
  In v (fulfilledValues ps) -> In (Fulfilled v) ps.
Proof.
  induction ps as [| [a | e] rest IH]; simpl; intros H.
  - contradiction.
  - destruct H as [H | H]; [left; congruence | right; exact (IH H)].
  - right. exact (IH H).
Qed.

(** A name stored for a key comes from a fulfilled lookup of an address
    with that normal form. *)
Lemma lookedUpNames_In nameService net relevant k n :
  In (k, n) (lookedUpNames nameService net relevant) ->
  exists a r,
    normalizeEVMAddress a = k
    /\ lookUpName nameService {| address := a; network := net |}
       = Fulfilled (Some r).
Proof.
  unfold lookedUpNames. intros H.
  apply definedNames_In, fulfilledValues_In, in_map_iff in H.
  destruct H as (a & H & _). unfold lookUpRecipientName in H.
  split_await H. injection H as Hk Hn.
  destruct v as [r |]; [| discriminate Hn].
  exists a, r. split; assumption.
Qed.

Lemma subannotation_recipientName
    assets nameService net relevant desiredDecimals resolvedTime block transfers
    sub recipient :
  In sub (flat_map (subannotationOfTransfer
                      assets (lookedUpNames nameService net relevant)
                      desiredDecimals resolvedTime block) transfers) ->
  recipientAddress sub = Some recipient ->
  (forall a, normalizeEVMAddress a = normalizeEVMAddress recipient ->
             exists e, lookUpName nameService {| address := a; network := net |}
                       = Rejected e) ->
  recipientName sub = None.
Proof.
  intros Hin Hrec Hrej. apply in_flat_map in Hin. destruct Hin as (l & _ & Hin).
  unfold subannotationOfTransfer in Hin.
  destruct (findMatchingFungibleAsset assets (xfer_contractAddress l));
    [| contradiction].
  destruct Hin as [<- | []]. simpl in *. injection Hrec as ->.
  destruct (namesByAddressGet _ _) as [n |] eqn:E; [| reflexivity].
  unfold namesByAddressGet in E. apply namesByAddressGet_found in E.
  destruct E as [E | E]; [discriminate E |].
  apply lookedUpNames_In in E. destruct E as (a & r & Ha & Hr).
  destruct (Hrej a Ha) as (e & He). congruence.
Qed.

(** C2, as the code has it: a rejected name lookup for the recipient of a
    logged transfer is absorbed, the annotation is produced and the
    sub-annotation has no recipient name; a rejected balance fetch, block
    fetch or name lookup of the classification proper is not caught and
    rejects the run. *)
Theorem collaborator_failures
    chainService indexingService nameService now net transaction desiredDecimals :
  (forall logs_ assets accounts ann0,
      logs transaction = Some logs_ ->
      resolveTransactionAnnotation chainService indexingService nameService now
                                   net (withLogs None transaction) desiredDecimals
      = Fulfilled ann0 ->
      getCachedAssets indexingService net = Fulfilled assets ->
      getAccountsToTrack chainService = Fulfilled accounts ->
      exists ann,
        resolveTransactionAnnotation chainService indexingService nameService now
                                     net transaction desiredDecimals
        = Fulfilled ann
        /\ forall sub recipient,
             In sub (subannotationList ann) ->
             recipientAddress sub = Some recipient ->
             (forall a, normalizeEVMAddress a = normalizeEVMAddress recipient ->
                        exists e,
                          lookUpName nameService {| address := a; network := net |}
                          = Rejected e) ->
             recipientName sub = None)
  /\ (forall gasLimit_ maxFeePerGas_ maxPriorityFeePerGas_ e,
         gasLimit transaction = Some gasLimit_ -> gasLimit_ <> 0 ->
         maxFeePerGas transaction = Some maxFeePerGas_ -> maxFeePerGas_ <> 0 ->
         maxPriorityFeePerGas transaction = Some maxPriorityFeePerGas_ ->
         maxPriorityFeePerGas_ <> 0 ->
         getLatestBaseAccountBalance chainService
           {| address := from transaction; network := net |} = Rejected e ->
         resolveTransactionAnnotation chainService indexingService nameService now
                                      net transaction desiredDecimals
         = Rejected e)
  /\ (forall h e,
         blockHash transaction = Some h -> h <> "" ->
         getBlockData chainService net h = Rejected e ->
         isFulfilled
           (resolveTransactionAnnotation chainService indexingService nameService
                                         now net transaction desiredDecimals)
         = false)
  /\ (forall to_ e,
         to transaction = Some to_ ->
         callData (input transaction) = None ->
         lookUpName nameService {| address := to_; network := net |} = Rejected e ->
         isFulfilled
           (resolveTransactionAnnotation chainService indexingService nameService
                                         now net transaction desiredDecimals)
         = false).
Proof.
  split; [| split; [| split]].
  - intros logs_ assets accounts ann0 Hlogs H0 Ha Hc.
    apply resolveTransactionAnnotation_stages in H0.
    destruct H0 as (a1 & block & a2 & a3 & H1 & H2 & H3 & H4).
    change (checkFunds chainService net transaction (defaultAnnotation now)
            = Fulfilled a1) in H1.
    change (resolveBlock chainService net transaction a1 = Fulfilled (block, a2))
      in H2.
    change (classify indexingService nameService net transaction desiredDecimals a2
            = Fulfilled a3) in H3.
    destruct (classified_no_subannotations _ _ _ _ _ _ _ _ _ _ _ H1 H2 H3)
      as (S3 & T3).
    destruct (annotationsFromLogs_fulfilled
                chainService indexingService nameService logs_ net desiredDecimals
                (timestamp a3) block assets accounts Ha Hc) as (subs & Hsubs).
    assert (Hrun : exists ann,
               resolveSubannotations chainService indexingService nameService net
                                     transaction desiredDecimals block a3
               = Fulfilled ann).
    { unfold resolveSubannotations. rewrite Hlogs, Hsubs. simpl.
      destruct subs; eexists; reflexivity. }
    destruct Hrun as (ann & Hann). exists ann. split.
    + unfold resolveTransactionAnnotation. rewrite H1. simpl. rewrite H2. simpl.
      rewrite H3. simpl. exact Hann.
    + intros sub recipient Hin Hrec Hrej.
      pose proof (resolveSubannotations_list _ _ _ _ _ _ _ _ _ S3 Hann) as Hl.
      rewrite Hlogs in Hl. apply annotationsFromLogs_result in Hl.
      destruct Hl as (assets' & accounts' & _ & _ & Hs). rewrite Hs in Hin.
      exact (subannotation_recipientName _ _ _ _ _ _ _ _ _ _ Hin Hrec Hrej).
  - intros g f p e Hg Hg0 Hf Hf0 Hp Hp0 Hbal.
    unfold resolveTransactionAnnotation, checkFunds.
    rewrite (truthy_Some _ _ Hg Hg0), (truthy_Some _ _ Hf Hf0),
      (truthy_Some _ _ Hp Hp0), Hbal.
    reflexivity.
  - intros h e Hh Hh0 Hblock. unfold resolveTransactionAnnotation.
    destruct (checkFunds _ _ _ _) as [a1 | e1]; simpl; [| reflexivity].
    unfold resolveBlock. rewrite Hh. simpl.
    destruct (String.eqb h "") eqn:E;
      [apply String.eqb_eq in E; contradiction |].
    rewrite Hblock. reflexivity.
  - intros to_ e Hto Hcd Hname. unfold resolveTransactionAnnotation.
    destruct (checkFunds _ _ _ _) as [a1 | e1]; simpl; [| reflexivity].
    destruct (resolveBlock _ _ _ _) as [[block a2] | e2]; simpl; [| reflexivity].
    unfold classify, lookUpNameOf. rewrite Hto, Hcd, Hname. reflexivity.
Qed.

Lemma collaborator_failures_witness :
  exists ann,
    resolveTransactionAnnotation
      (Sample.chain 0) Sample.indexing Sample.namesFlaky 42 Sample.mainnet
      (Sample.minedCall [Sample.transferAliceBob]) 2
    = Fulfilled ann
    /\ lookUpName Sample.namesFlaky
                  {| address := Sample.bob; network := Sample.mainnet |}
       = Rejected "name lookup timed out"
    /\ map recipientAddress (subannotationList ann) = [Some Sample.bob]
    /\ forall sub, In sub (subannotationList ann) -> recipientName sub = None.
Proof.
  destruct (collaborator_failures
              (Sample.chain 0) Sample.indexing Sample.namesFlaky 42 Sample.mainnet
              (Sample.minedCall [Sample.transferAliceBob]) 2) as [Habsorbed _].
  destruct (Habsorbed [Sample.transferAliceBob] Sample.catalog
                      [ {| address := Sample.alice; network := Sample.mainnet |} ]
                      _ eq_refl eq_refl eq_refl eq_refl) as (ann & Hann & Hnames).
  exists ann. split; [exact Hann |]. split; [reflexivity |].
  vm_compute in Hann. injection Hann as Hann.
  split; [rewrite <- Hann; reflexivity |].
  intros sub Hin. apply (Hnames sub Sample.bob Hin).
  - rewrite <- Hann in Hin. destruct Hin as [<- | []]. reflexivity.
  - intros a Ha. exists "name lookup timed out". simpl.
    apply sameEVMAddress_true in Ha. rewrite Ha. reflexivity.
Defined.

(** C2 as it is worded fails on a plain send whose recipient cannot be
    resolved: the rejection of the name lookup is the outcome of the run. *)
Lemma name_lookup_failure_counterexample :
  lookUpName Sample.namesDown
             {| address := Sample.bob; network := Sample.mainnet |}
  = Rejected "name lookup timed out"
  /\ resolveTransactionAnnotation
       (Sample.chain 1000000) Sample.indexing Sample.namesDown 42 Sample.mainnet
       (Sample.ethSend (Some 5) None) 2
     = Rejected "name lookup timed out".
Proof. split; vm_compute; reflexivity. Qed.

(** * Further properties of the classifier *)

(** The four stages of a fulfilled run, with what each leaves alone. *)
Lemma resolveTransactionAnnotation_classified
    chainService indexingService nameService now net transaction desiredDecimals ann :
  resolveTransactionAnnotation chainService indexingService nameService now net
                               transaction desiredDecimals = Fulfilled ann ->
  exists a1 block a2 a3,
    checkFunds chainService net transaction (defaultAnnotation now) = Fulfilled a1
    /\ resolveBlock chainService net transaction a1 = Fulfilled (block, a2)
    /\ classify indexingService nameService net transaction desiredDecimals a2
       = Fulfilled a3
    /\ resolveSubannotations chainService indexingService nameService net
                             transaction desiredDecimals block a3 = Fulfilled ann
    /\ sameVariant (defaultAnnotation now) a2
    /\ warnings a2 = warnings a1
    /\ sameVariant a3 ann
    /\ warnings ann = warnings a3
    /\ blockTimestamp ann = blockTimestamp a2
    /\ subannotations a3 = None.
Proof.
  intros H. apply resolveTransactionAnnotation_stages in H.
  destruct H as (a1 & block & a2 & a3 & H1 & H2 & H3 & H4).
  exists a1, block, a2, a3.
  destruct (prefix_sameVariant _ _ _ _ _ _ _ H1 H2) as (V2 & W2 & _).
  destruct (classified_no_subannotations _ _ _ _ _ _ _ _ _ _ _ H1 H2 H3)
    as (S3 & _).
  pose proof (classify_frame _ _ _ _ _ _ _ H3) as (_ & B3 & _ & _).
  pose proof (resolveSubannotations_frame _ _ _ _ _ _ _ _ _ H4) as (V4 & W4 & B4).
  repeat (split; [assumption |]).
  split; [congruence | exact S3].
Qed.

(** ** Contract deployments *)

Lemma classify_type
    indexingService nameService net transaction desiredDecimals a a3 :
  type a = contract_interaction ->
  classify indexingService nameService net transaction desiredDecimals a
  = Fulfilled a3 ->
  (type a3 = contract_deployment <-> to transaction = None).
Proof.
  unfold classify, annotateERC20Transfer, annotateERC20Approval,
    annotateContractInteraction, annotateNoData.
  intros Ht H.
  break_run H; try destruct (value transaction); simpl;
    split; intros E; try reflexivity; try discriminate E; congruence.
Qed.

(** X1: an annotation is a contract-deployment exactly when the
    transaction has no recipient, whatever its call data, value, fees and
    logs are. *)
Theorem contract_deployment_iff_no_recipient
    chainService indexingService nameService now net transaction desiredDecimals ann :
  resolveTransactionAnnotation chainService indexingService nameService now net
                               transaction desiredDecimals = Fulfilled ann ->
  (type ann = contract_deployment <-> to transaction = None).
Proof.
  intros H. apply resolveTransactionAnnotation_classified in H.
  destruct H as (a1 & block & a2 & a3 & _ & _ & H3 & _ & V2 & _ & V4 & _).
  destruct V2 as (T2 & _). destruct V4 as (T4 & _). simpl in T2.
  rewrite <- T4. apply (classify_type _ _ _ _ _ _ _ (eq_sym T2) H3).
Qed.

Lemma contract_deployment_iff_no_recipient_witness :
  (exists ann,
     resolveTransactionAnnotation
       (Sample.chain 0) Sample.indexing Sample.names 42 Sample.mainnet
       (Sample.deployment (Some [Sample.transferAliceBob])) 2 = Fulfilled ann
     /\ type ann = contract_deployment)
  /\ (exists ann,
        resolveTransactionAnnotation
          (Sample.chain 0) Sample.indexing Sample.names 42 Sample.mainnet
          (Sample.minedCall []) 2 = Fulfilled ann
        /\ type ann <> contract_deployment).
Proof.
  split; eexists; (split; [vm_compute; reflexivity |]).
  - apply (contract_deployment_iff_no_recipient
             (Sample.chain 0) Sample.indexing Sample.names 42 Sample.mainnet
             (Sample.deployment (Some [Sample.transferAliceBob])) 2 _ eq_refl).
    reflexivity.
  - intros E.
    apply (contract_deployment_iff_no_recipient
             (Sample.chain 0) Sample.indexing Sample.names 42 Sample.mainnet
             (Sample.minedCall []) 2 _ eq_refl) in E.
    discriminate E.
Defined.

Lemma annotationsFromLogs_isFulfilled
    chainService indexingService nameService logs_ net desiredDecimals resolvedTime
    block :
  isFulfilled (annotationsFromLogs chainService indexingService nameService logs_
                                   net desiredDecimals resolvedTime block)
  = isFulfilled (getCachedAssets indexingService net)
    && isFulfilled (getAccountsToTrack chainService).
Proof.
  unfold annotationsFromLogs.
  destruct (getCachedAssets indexingService net); simpl; [| reflexivity].
  destruct (getAccountsToTrack chainService); reflexivity.
Qed.

Lemma resolveSubannotations_isFulfilled
    chainService indexingService nameService net transaction desiredDecimals block a :
  isFulfilled (resolveSubannotations chainService indexingService nameService net
                                     transaction desiredDecimals block a)
  = match logs transaction with
    | Some _ => isFulfilled (getCachedAssets indexingService net)
                && isFulfilled (getAccountsToTrack chainService)
    | None => true
    end.
Proof.
  unfold resolveSubannotations.
  destruct (logs transaction) as [logs_ |]; [| reflexivity].
  rewrite <- (annotationsFromLogs_isFulfilled
                chainService indexingService nameService logs_ net desiredDecimals
                (timestamp a) block).
  destruct (annotationsFromLogs _ _ _ _ _ _ _ _) as [[| sub subs] | e]; reflexivity.
Qed.

(** X2: a transaction without recipient is annotated without the name
    service and, when it has no logs, without the catalog: without logs
    the outcome is the same for every indexing and name service, and with
    logs no name service can make the run reject. *)
Theorem deployment_ignores_catalog_and_names
    chainService indexingService nameService now net transaction desiredDecimals :
  to transaction = None ->
  (logs transaction = None ->
   forall indexingService' nameService',
     resolveTransactionAnnotation chainService indexingService' nameService' now
                                  net transaction desiredDecimals
     = resolveTransactionAnnotation chainService indexingService nameService now
                                    net transaction desiredDecimals)
  /\ (forall nameService',
        isFulfilled
          (resolveTransactionAnnotation chainService indexingService nameService'
                                        now net transaction desiredDecimals)
        = isFulfilled
            (resolveTransactionAnnotation chainService indexingService nameService
                                          now net transaction desiredDecimals)).
Proof.
  intros Hto. split.
  - intros Hlogs indexingService' nameService'.
    unfold resolveTransactionAnnotation, classify, resolveSubannotations.
    rewrite Hto, Hlogs. reflexivity.
  - intros nameService'. unfold resolveTransactionAnnotation.
    destruct (checkFunds _ _ _ _) as [a1 | e1]; simpl; [| reflexivity].
    destruct (resolveBlock _ _ _ _) as [[block a2] | e2]; simpl; [| reflexivity].
    unfold classify. rewrite Hto. simpl.
    rewrite !resolveSubannotations_isFulfilled. reflexivity.
Qed.

Lemma deployment_ignores_catalog_and_names_witness :
  resolveTransactionAnnotation
    (Sample.chain 0) Sample.indexingDown Sample.namesDown 42 Sample.mainnet
    (Sample.deployment None) 2
  = resolveTransactionAnnotation
      (Sample.chain 0) Sample.indexing Sample.names 42 Sample.mainnet
      (Sample.deployment None) 2
  /\ isFulfilled
       (resolveTransactionAnnotation
          (Sample.chain 0) Sample.indexing Sample.namesDown 42 Sample.mainnet
          (Sample.deployment (Some [Sample.transferAliceBob])) 2)
     = true.
Proof.
  split.
  - apply (deployment_ignores_catalog_and_names
             (Sample.chain 0) Sample.indexing Sample.names 42 Sample.mainnet
             (Sample.deployment None) 2 eq_refl).
    reflexivity.
  - rewrite (proj2 (deployment_ignores_catalog_and_names
                      (Sample.chain 0) Sample.indexing Sample.names 42
                      Sample.mainnet
                      (Sample.deployment (Some [Sample.transferAliceBob])) 2
                      eq_refl) Sample.namesDown).
    vm_compute. reflexivity.
Defined.

(** ** Transactions without call data, continued *)

(** X3: a transaction with a recipient and without call data is annotated
    without the catalog when it has no logs: the outcome is the same for
    every indexing service, so that a plain send to the address of a token
    contract is a transfer of the base asset. *)
Theorem no_data_ignores_catalog
    chainService indexingService nameService now net transaction desiredDecimals to_ :
  to transaction = Some to_ ->
  input transaction = undefined \/ input transaction = null
  \/ input transaction = defined "0x" ->
  logs transaction = None ->
  forall indexingService',
    resolveTransactionAnnotation chainService indexingService' nameService now net
                                 transaction desiredDecimals
    = resolveTransactionAnnotation chainService indexingService nameService now
                                   net transaction desiredDecimals.
Proof.
  intros Hto Hin Hlogs indexingService'. apply callData_None in Hin.
  unfold resolveTransactionAnnotation, classify, resolveSubannotations.
  rewrite Hto, Hin, Hlogs. reflexivity.
Qed.

Lemma no_data_ignores_catalog_witness :
  exists ann,
    resolveTransactionAnnotation
      (Sample.chain 0) Sample.indexing Sample.names 42 Sample.mainnet
      Sample.sendToDaiContract 2
    = Fulfilled ann
    /\ type ann = asset_transfer
    /\ option_map ea_asset (assetAmount ann) = Some Sample.ETH
    /\ resolveTransactionAnnotation
         (Sample.chain 0) Sample.indexingDown Sample.names 42 Sample.mainnet
         Sample.sendToDaiContract 2
       = Fulfilled ann.
Proof.
  eexists. split; [vm_compute; reflexivity |].
  split; [reflexivity |]. split; [reflexivity |].
  rewrite (no_data_ignores_catalog
             (Sample.chain 0) Sample.indexing Sample.names 42 Sample.mainnet
             Sample.sendToDaiContract 2 Sample.daiAddress eq_refl
             (or_intror (or_introl eq_refl)) eq_refl Sample.indexingDown).
  vm_compute. reflexivity.
Defined.

(** ** Calls of a catalog asset *)

Lemma lookUpNameOf_Fulfilled nameService net addr n :
  lookUpNameOf nameService net addr = Fulfilled n ->
  exists r,
    lookUpName nameService {| address := addr; network := net |} = Fulfilled r
    /\ n = option_map name r.
Proof.
  unfold lookUpNameOf. intros H. split_await H. fulfilled_eq H.
  exists v. split; [assumption | reflexivity].
Qed.

Lemma classify_approve
    indexingService nameService net transaction desiredDecimals a to_ input_ assets
    matching argSpender argValue :
  to transaction = Some to_ ->
  callData (input transaction) = Some input_ ->
  getCachedAssets indexingService net = Fulfilled assets ->
  findMatchingFungibleAsset assets to_ = Some matching ->
  ERC20.parseERC20Tx input_ = Some (approve argSpender argValue) ->
  classify indexingService nameService net transaction desiredDecimals a
  = annotateERC20Approval nameService net desiredDecimals matching argSpender
                          argValue a.
Proof.
  unfold classify. intros -> -> -> Hm ->. simpl. rewrite Hm. reflexivity.
Qed.

Lemma classify_fallback
    indexingService nameService net transaction desiredDecimals a to_ input_ assets :
  to transaction = Some to_ ->
  callData (input transaction) = Some input_ ->
  getCachedAssets indexingService net = Fulfilled assets ->
  findMatchingFungibleAsset assets to_ = None \/ ERC20.parseERC20Tx input_ = None ->
  classify indexingService nameService net transaction desiredDecimals a
  = annotateContractInteraction nameService net to_
                                (findMatchingFungibleAsset assets to_) a.
Proof.
  unfold classify. intros -> -> -> [Hm | Hp]; simpl.
  - rewrite Hm. reflexivity.
  - rewrite Hp. destruct (findMatchingFungibleAsset assets to_); reflexivity.
Qed.

(** X4: a transaction sent to a catalog asset whose call data decodes as
    approve is annotated as an asset-approval: the spender is the decoded
    spender with the name looked up for it, the amount is the decoded
    allowance in the matched asset, the logo is the one of the asset, and
    the warnings are those of the funds check. *)
Theorem erc20_approval_annotation
    chainService indexingService nameService now net transaction desiredDecimals
    to_ input_ assets matching argSpender argValue ann :
  to transaction = Some to_ ->
  input transaction = defined input_ ->
  getCachedAssets indexingService net = Fulfilled assets ->
  findMatchingFungibleAsset assets to_ = Some matching ->
  ERC20.parseERC20Tx input_ = Some (approve argSpender argValue) ->
  resolveTransactionAnnotation chainService indexingService nameService now net
                               transaction desiredDecimals = Fulfilled ann ->
  type ann = asset_approval
  /\ spenderAddress ann = Some argSpender
  /\ (exists r,
        lookUpName nameService {| address := argSpender; network := net |}
        = Fulfilled r
        /\ spenderName ann = option_map name r)
  /\ assetAmount ann
     = Some (enrichAssetAmountWithDecimalValues
               {| asset := matching; amount := argValue |} desiredDecimals)
  /\ transactionLogoURL ann = logoOf (Some matching)
  /\ ~ In send_to_token (warningList ann).
Proof.
  intros Hto Hin Hassets Hmatch Hparse H.
  pose proof H as Hrun. apply resolveTransactionAnnotation_classified in H.
  destruct H as (a1 & block & a2 & a3 & H1 & _ & H3 & _ & _ & W2 & V4 & W4 & _).
  assert (Hcd : callData (input transaction) = Some input_)
    by (rewrite Hin; eapply parseERC20Tx_callData; eassumption).
  rewrite (classify_approve _ _ _ _ _ _ _ _ _ _ _ _
             Hto Hcd Hassets Hmatch Hparse) in H3.
  unfold annotateERC20Approval in H3. split_await H3. fulfilled_eq H3.
  apply lookUpNameOf_Fulfilled in Hp. destruct Hp as (r & Hr & ->).
  destruct V4 as (Vt & _ & _ & Vl & _ & _ & _ & Va & Vp & Vq). simpl in *.
  rewrite <- Vt, <- Vl, <- Va, <- Vp, <- Vq.
  repeat (split; [reflexivity |]).
  split; [exists r; split; [exact Hr | reflexivity] |].
  repeat (split; [reflexivity |]).
  unfold warningList. rewrite W4, W2.
  exact (checkFunds_no_send_to_token _ _ _ _ _ H1).
Qed.

Lemma erc20_approval_annotation_witness :
  exists ann,
    resolveTransactionAnnotation
      (Sample.chain 5) Sample.indexing Sample.names 42 Sample.mainnet
      Sample.daiApprove 2 = Fulfilled ann
    /\ type ann = asset_approval
    /\ spenderAddress ann = Some Sample.bob
    /\ spenderName ann = Some "bob.eth"
    /\ option_map ea_amount (assetAmount ann) = Some 100
    /\ transactionLogoURL ann = Some "dai.svg"
    /\ warnings ann = Some [insufficient_funds].
Proof.
  eexists. split; [vm_compute; reflexivity |].
  destruct (erc20_approval_annotation
              (Sample.chain 5) Sample.indexing Sample.names 42 Sample.mainnet
              Sample.daiApprove 2 Sample.daiAddress Sample.approveBob
              Sample.catalog Sample.DAI Sample.bob 100 _
              eq_refl eq_refl eq_refl eq_refl eq_refl eq_refl)
    as (Ht & Hs & (r & Hr & Hn) & Ha & Hl & _).
  vm_compute in Hr. injection Hr as <-.
  split; [exact Ht |]. split; [exact Hs |]. split; [exact Hn |].
  split; [exact (f_equal (option_map ea_amount) Ha) |].
  split; [exact Hl | reflexivity].
Defined.

(** X5: a transaction with call data whose recipient matches no catalog
    asset, or whose call data does not decode, falls back on a
    contract-interaction named after the resolved recipient; it has no
    amount, and it carries the logo of the matching asset when there is
    one. *)
Theorem unrecognized_call_annotation
    chainService indexingService nameService now net transaction desiredDecimals
    to_ input_ assets ann :
  to transaction = Some to_ ->
  input transaction = defined input_ -> input_ <> "0x" ->
  getCachedAssets indexingService net = Fulfilled assets ->
  findMatchingFungibleAsset assets to_ = None \/ ERC20.parseERC20Tx input_ = None ->
  resolveTransactionAnnotation chainService indexingService nameService now net
                               transaction desiredDecimals = Fulfilled ann ->
  type ann = contract_interaction
  /\ (exists r,
        lookUpName nameService {| address := to_; network := net |} = Fulfilled r
        /\ contractName ann = option_map name r)
  /\ transactionLogoURL ann = logoOf (findMatchingFungibleAsset assets to_)
  /\ assetAmount ann = None.
Proof.
  intros Hto Hin Hne Hassets Hfall H.
  apply resolveTransactionAnnotation_classified in H.
  destruct H as (a1 & block & a2 & a3 & _ & _ & H3 & _ & V2 & _ & V4 & _).
  assert (Hcd : callData (input transaction) = Some input_).
  { rewrite Hin. simpl. destruct (String.eqb input_ "0x") eqn:E; [| reflexivity].
    apply String.eqb_eq in E. contradiction. }
  rewrite (classify_fallback _ _ _ _ _ _ _ _ _ Hto Hcd Hassets Hfall) in H3.
  unfold annotateContractInteraction in H3. split_await H3. fulfilled_eq H3.
  apply lookUpNameOf_Fulfilled in Hp. destruct Hp as (r & Hr & ->).
  destruct V4 as (Vt & _ & Vc & Vl & _ & _ & _ & Va & _).
  destruct V2 as (_ & _ & _ & _ & _ & _ & _ & Da & _). simpl in *.
  rewrite <- Vt, <- Vc, <- Vl, <- Va, <- Da.
  split; [reflexivity |].
  split; [exists r; split; [exact Hr | reflexivity] |].
  split; reflexivity.
Qed.

Lemma unrecognized_call_annotation_witness :
  exists ann,
    resolveTransactionAnnotation
      (Sample.chain 0) Sample.indexing Sample.names 42 Sample.mainnet
      Sample.daiUnknownCall 2 = Fulfilled ann
    /\ type ann = contract_interaction
    /\ contractName ann = None
    /\ transactionLogoURL ann = Some "dai.svg"
    /\ assetAmount ann = None.
Proof.
  eexists. split; [vm_compute; reflexivity |].
  assert (Hne : "0x12345678" <> "0x") by discriminate.
  destruct (unrecognized_call_annotation
              (Sample.chain 0) Sample.indexing Sample.names 42 Sample.mainnet
              Sample.daiUnknownCall 2 Sample.daiAddress "0x12345678"
              Sample.catalog _ eq_refl eq_refl Hne eq_refl (or_intror eq_refl)
              eq_refl)
    as (Ht & (r & Hr & Hn) & Hl & Ha).
  vm_compute in Hr. injection Hr as <-.
  split; [exact Ht |]. split; [exact Hn |]. split; [exact Hl | exact Ha].
Defined.

(** X6: in the annotation of a transfer or transferFrom sent to a catalog
    asset, the recipient name is the name looked up for the decoded
    recipient, not for the token contract, and the logo is the one of the
    matched asset. *)
Theorem erc20_transfer_recipient_name
    chainService indexingService nameService now net transaction desiredDecimals
    to_ input_ assets matching erc20Tx argFrom argTo argAmount ann :
  to transaction = Some to_ ->
  input transaction = defined input_ ->
  getCachedAssets indexingService net = Fulfilled assets ->
  findMatchingFungibleAsset assets to_ = Some matching ->
  ERC20.parseERC20Tx input_ = Some erc20Tx ->
  transferArgs erc20Tx = Some (argFrom, argTo, argAmount) ->
  resolveTransactionAnnotation chainService indexingService nameService now net
                               transaction desiredDecimals = Fulfilled ann ->
  (exists r,
     lookUpName nameService {| address := argTo; network := net |} = Fulfilled r
     /\ recipientName ann = option_map name r)
  /\ transactionLogoURL ann = logoOf (Some matching)
  /\ contractName ann = None.
Proof.
  intros Hto Hin Hassets Hmatch Hparse Hargs H.
  apply resolveTransactionAnnotation_classified in H.
  destruct H as (a1 & block & a2 & a3 & _ & _ & H3 & _ & V2 & _ & V4 & _).
  assert (Hcd : callData (input transaction) = Some input_)
    by (rewrite Hin; eapply parseERC20Tx_callData; eassumption).
  rewrite (classify_transfer _ _ _ _ _ _ _ _ _ _ _ _ _ _
             Hto Hcd Hassets Hmatch Hparse Hargs) in H3.
  unfold annotateERC20Transfer in H3. split_await H3. cbv zeta in H3.
  apply lookUpNameOf_Fulfilled in Hp. destruct Hp as (r & Hr & ->).
  destruct V4 as (_ & _ & Vc & Vl & _ & _ & Vn & _).
  destruct V2 as (_ & _ & Dc & _). simpl in Dc.
  rewrite <- Vc, <- Vl, <- Vn.
  destruct (sameEVMAddress argTo to_); fulfilled_eq H3; simpl;
    (split; [exists r; split; [exact Hr | reflexivity] |]);
    (split; [reflexivity | congruence]).
Qed.

Lemma erc20_transfer_recipient_name_witness :
  exists ann,
    resolveTransactionAnnotation
      (Sample.chain 0) Sample.indexing Sample.names 42 Sample.mainnet
      Sample.daiTransferFrom 2 = Fulfilled ann
    /\ recipientName ann = Some "bob.eth"
    /\ transactionLogoURL ann = Some "dai.svg".
Proof.
  eexists. split; [vm_compute; reflexivity |].
  destruct (erc20_transfer_recipient_name
              (Sample.chain 0) Sample.indexing Sample.names 42 Sample.mainnet
              Sample.daiTransferFrom 2 Sample.daiAddress
              Sample.transferFromAliceToBob Sample.catalog Sample.DAI
              (transferFrom Sample.alice Sample.bob 7) (Some Sample.alice)
              Sample.bob 7 _ eq_refl eq_refl eq_refl eq_refl eq_refl eq_refl eq_refl)
    as ((r & Hr & Hn) & Hl & _).
  vm_compute in Hr. injection Hr as <-.
  split; [exact Hn | exact Hl].
Defined.

(** ** Timestamps *)

(** X7: the block timestamp of the annotation is the timestamp of the
    fetched block when the transaction has a block hash, and is missing
    when the block hash is missing or empty. *)
Theorem block_timestamp_of_annotation
    chainService indexingService nameService now net transaction desiredDecimals ann :
  resolveTransactionAnnotation chainService indexingService nameService now net
                               transaction desiredDecimals = Fulfilled ann ->
  (blockHash transaction = None \/ blockHash transaction = Some "" ->
   blockTimestamp ann = None)
  /\ (forall h,
        blockHash transaction = Some h -> h <> "" ->
        exists block,
          getBlockData chainService net h = Fulfilled block
          /\ blockTimestamp ann = Some (block_timestamp block)).
Proof.
  intros H. apply resolveTransactionAnnotation_classified in H.
  destruct H as (a1 & block & a2 & a3 & H1 & H2 & _ & _ & _ & _ & _ & _ & B & _).
  apply checkFunds_frame in H1. destruct H1 as (_ & B1 & _). simpl in B1.
  rewrite B. unfold resolveBlock in H2. split.
  - intros [Hh | Hh]; rewrite Hh in H2; simpl in H2;
      injection H2 as _ <-; exact B1.
  - intros h Hh Hne. rewrite Hh in H2. simpl in H2.
    destruct (String.eqb h "") eqn:E;
      [apply String.eqb_eq in E; contradiction |].
    split_await H2. injection H2 as _ <-. exists v. split; [exact Hp | reflexivity].
Qed.

Lemma block_timestamp_of_annotation_witness :
  (exists ann,
     resolveTransactionAnnotation
       (Sample.chain 0) Sample.indexing Sample.names 42 Sample.mainnet
       (Sample.deployment None) 2 = Fulfilled ann
     /\ blockTimestamp ann = Some 1650000000)
  /\ (exists ann,
        resolveTransactionAnnotation
          Sample.chainWithoutBlocks Sample.indexing Sample.names 42 Sample.mainnet
          Sample.daiUnknownCall 2 = Fulfilled ann
        /\ blockTimestamp ann = None).
Proof.
  split; eexists; (split; [vm_compute; reflexivity |]).
  - destruct (proj2 (block_timestamp_of_annotation
                       (Sample.chain 0) Sample.indexing Sample.names 42
                       Sample.mainnet (Sample.deployment None) 2 _ eq_refl)
                    "0xb10c" eq_refl) as (block & Hb & Ht); [discriminate |].
    vm_compute in Hb. injection Hb as <-. exact Ht.
  - apply (proj1 (block_timestamp_of_annotation
                    Sample.chainWithoutBlocks Sample.indexing Sample.names 42
                    Sample.mainnet Sample.daiUnknownCall 2 _ eq_refl)).
    left. reflexivity.
Defined.

Lemma subannotation_shared_fields
    assets namesByAddress desiredDecimals resolvedTime block transfers sub :
  In sub (flat_map (subannotationOfTransfer assets namesByAddress desiredDecimals
                                            resolvedTime block) transfers) ->
  timestamp sub = resolvedTime
  /\ blockTimestamp sub = option_map block_timestamp block
  /\ transactionLogoURL sub = None.
Proof.
  intros H. apply in_flat_map in H. destruct H as (l & _ & H).
  unfold subannotationOfTransfer in H.
  destruct (findMatchingFungibleAsset assets (xfer_contractAddress l));
    [| contradiction].
  destruct H as [<- | []]. simpl. repeat split.
Qed.

(** X8: the timestamp of the annotation is the clock value read at the
    start, and every sub-annotation repeats the timestamp and the block
    timestamp of the annotation; a sub-annotation carries no warning and no
    logo. *)
Theorem subannotations_share_timestamps
    chainService indexingService nameService now net transaction desiredDecimals ann :
  resolveTransactionAnnotation chainService indexingService nameService now net
                               transaction desiredDecimals = Fulfilled ann ->
  timestamp ann = now
  /\ forall sub,
       In sub (subannotationList ann) ->
       timestamp sub = now
       /\ blockTimestamp sub = blockTimestamp ann
       /\ warnings sub = None
       /\ transactionLogoURL sub = None.
Proof.
  intros H. apply resolveTransactionAnnotation_classified in H.
  destruct H as (a1 & block & a2 & a3 & H1 & H2 & H3 & H4 & _ & _ & V4 & _ & B & S3).
  destruct (classified_no_subannotations _ _ _ _ _ _ _ _ _ _ _ H1 H2 H3)
    as (_ & T3).
  destruct V4 as (_ & T4 & _).
  split; [congruence |].
  intros sub Hin.
  pose proof (resolveSubannotations_list _ _ _ _ _ _ _ _ _ S3 H4) as Hl.
  destruct (logs transaction) as [logs_ |];
    [| rewrite Hl in Hin; contradiction].
  apply annotationsFromLogs_result in Hl.
  destruct Hl as (assets & accounts & _ & _ & Hs). rewrite Hs in Hin.
  destruct (subannotation_shared_fields _ _ _ _ _ _ _ Hin) as (Ts & Bs & Ls).
  destruct (subannotation_variant _ _ _ _ _ _ _ Hin) as (_ & _ & _ & Ws).
  apply checkFunds_frame in H1. destruct H1 as (_ & B1 & _). simpl in B1.
  apply resolveBlock_frame in H2. destruct H2 as (_ & _ & _ & B2).
  split; [congruence |]. split; [| split; assumption].
  rewrite Bs, B, B2. destruct block; [reflexivity | symmetry; exact B1].
Qed.

Lemma subannotations_share_timestamps_witness :
  exists ann,
    resolveTransactionAnnotation
      (Sample.chain 0) Sample.indexing Sample.names 42 Sample.mainnet
      (Sample.minedCall [Sample.transferAliceBob; Sample.depositAlice]) 2
    = Fulfilled ann
    /\ timestamp ann = 42
    /\ map timestamp (subannotationList ann) = [42; 42]
    /\ forall sub, In sub (subannotationList ann) ->
                   blockTimestamp sub = Some 1650000000.
Proof.
  eexists. split; [vm_compute; reflexivity |].
  destruct (subannotations_share_timestamps
              (Sample.chain 0) Sample.indexing Sample.names 42 Sample.mainnet
              (Sample.minedCall [Sample.transferAliceBob; Sample.depositAlice]) 2
              _ eq_refl) as (Ht & Hsubs).
  split; [exact Ht |]. split; [reflexivity |].
  intros sub Hin. destruct (Hsubs sub Hin) as (_ & Hb & _). exact Hb.
Defined.

(** ** The shape of the sub-annotation list and of the warnings *)

(** X9: the annotation never carries an empty sub-annotation list.
    Without logs the list is missing; with logs it is missing exactly when
    no parsed transfer matches a catalog asset. *)
Theorem subannotations_never_empty
    chainService indexingService nameService now net transaction desiredDecimals ann :
  resolveTransactionAnnotation chainService indexingService nameService now net
                               transaction desiredDecimals = Fulfilled ann ->
  subannotations ann <> Some []
  /\ match logs transaction with
     | None => subannotations ann = None
     | Some logs_ =>
         exists assets,
           getCachedAssets indexingService net = Fulfilled assets
           /\ (subannotations ann = None
               <-> filter (matchesCatalogAsset assets) (tokenTransferLogsOf logs_)
                   = [])
     end.
Proof.
  intros H. apply resolveTransactionAnnotation_classified in H.
  destruct H as (a1 & block & a2 & a3 & _ & _ & _ & H4 & _ & _ & _ & _ & _ & S3).
  unfold resolveSubannotations in H4.
  destruct (logs transaction) as [logs_ |].
  - split_await H4. apply annotationsFromLogs_result in Hp.
    destruct Hp as (assets & accounts & Ha & _ & Hv).
    pose proof (subannotations_describe_matching
                  assets
                  (lookedUpNames nameService net
                     (getERC20LogsForAddresses (tokenTransferLogsOf logs_)
                                               (map address accounts)))
                  desiredDecimals (timestamp a3) block (tokenTransferLogsOf logs_))
      as F.
    rewrite <- Hv in F.
    destruct v as [| sub subs]; fulfilled_eq H4.
    + split; [rewrite S3; discriminate |].
      exists assets. split; [exact Ha |].
      inversion F. split; [reflexivity | intros _; exact S3].
    + simpl. split; [discriminate |].
      exists assets. split; [exact Ha |].
      inversion F as [| ? l ? ls ? ? E1 E2]. split; discriminate.
  - fulfilled_eq H4. split; [rewrite S3; discriminate | exact S3].
Qed.

Lemma subannotations_never_empty_witness :
  (exists ann,
     resolveTransactionAnnotation
       (Sample.chain 0) Sample.indexing Sample.names 42 Sample.mainnet
       (Sample.minedCall [Sample.unrelatedLog]) 2 = Fulfilled ann
     /\ subannotations ann = None)
  /\ (exists ann,
        resolveTransactionAnnotation
          (Sample.chain 0) Sample.indexing Sample.names 42 Sample.mainnet
          (Sample.minedCall [Sample.transferAliceBob]) 2 = Fulfilled ann
        /\ subannotations ann <> None /\ subannotations ann <> Some []).
Proof.
  split; eexists; (split; [vm_compute; reflexivity |]).
  - destruct (subannotations_never_empty
                (Sample.chain 0) Sample.indexing Sample.names 42 Sample.mainnet
                (Sample.minedCall [Sample.unrelatedLog]) 2 _ eq_refl)
      as (_ & assets & Ha & Hiff).
    vm_compute in Ha. injection Ha as <-. apply Hiff. reflexivity.
  - split; [discriminate |].
    apply (subannotations_never_empty
             (Sample.chain 0) Sample.indexing Sample.names 42 Sample.mainnet
             (Sample.minedCall [Sample.transferAliceBob]) 2 _ eq_refl).
Defined.

(** X10: the annotation carries no warning list, or a list with the single
    warning insufficient-funds, or a list with the single warning
    send-to-token: never an empty list, never both warnings. *)
Theorem warnings_shape
    chainService indexingService nameService now net transaction desiredDecimals ann :
  resolveTransactionAnnotation chainService indexingService nameService now net
                               transaction desiredDecimals = Fulfilled ann ->
  warnings ann = None \/ warnings ann = Some [insufficient_funds]
  \/ warnings ann = Some [send_to_token].
Proof.
  intros H. apply resolveTransactionAnnotation_classified in H.
  destruct H as (a1 & block & a2 & a3 & H1 & _ & H3 & _ & _ & W2 & _ & W4 & _).
  apply checkFunds_frame in H1. destruct H1 as (_ & _ & _ & W1).
  apply classify_frame in H3. destruct H3 as (_ & _ & _ & W3).
  rewrite W4. destruct W3 as [W3 | W3]; [| auto].
  rewrite W3, W2. destruct W1 as [W1 | W1]; rewrite W1; simpl; auto.
Qed.

Lemma warnings_shape_witness :
  exists ann,
    resolveTransactionAnnotation
      (Sample.chain 5) Sample.indexing Sample.names 42 Sample.mainnet
      Sample.daiTransferToItself 2 = Fulfilled ann
    /\ (warnings ann = None \/ warnings ann = Some [insufficient_funds]
        \/ warnings ann = Some [send_to_token]).
Proof.
  eexists. split; [vm_compute; reflexivity |].
  apply (warnings_shape
           (Sample.chain 5) Sample.indexing Sample.names 42 Sample.mainnet
           Sample.daiTransferToItself 2).
  vm_compute. reflexivity.
Defined.

(** ** Logs *)

(** X11: the logs of a transaction only add sub-annotations: the
    annotation of the transaction without its logs is the annotation of the
    transaction, less its sub-annotations. *)
Theorem logs_only_add_subannotations
    chainService indexingService nameService now net transaction desiredDecimals ann :
  resolveTransactionAnnotation chainService indexingService nameService now net
                               transaction desiredDecimals = Fulfilled ann ->
  resolveTransactionAnnotation chainService indexingService nameService now net
                               (withLogs None transaction) desiredDecimals
  = Fulfilled (withoutSubannotations ann).
Proof.
  intros H. apply resolveTransactionAnnotation_classified in H.
  destruct H as (a1 & block & a2 & a3 & H1 & H2 & H3 & H4 & _ & _ & _ & _ & _ & S3).
  unfold resolveTransactionAnnotation.
  change (checkFunds chainService net (withLogs None transaction)
                     (defaultAnnotation now))
    with (checkFunds chainService net transaction (defaultAnnotation now)).
  rewrite H1. simpl.
  change (resolveBlock chainService net (withLogs None transaction) a1)
    with (resolveBlock chainService net transaction a1).
  rewrite H2. simpl.
  change (classify indexingService nameService net (withLogs None transaction)
                   desiredDecimals a2)
    with (classify indexingService nameService net transaction desiredDecimals a2).
  rewrite H3. simpl. unfold resolveSubannotations. simpl. f_equal.
  unfold resolveSubannotations in H4.
  assert (E : withoutSubannotations a3 = a3)
    by (destruct a3; simpl in S3; subst; reflexivity).
  destruct (logs transaction) as [logs_ |].
  - split_await H4. destruct v; fulfilled_eq H4; [symmetry; exact E |].
    rewrite <- E at 1. reflexivity.
  - fulfilled_eq H4. symmetry. exact E.
Qed.

Lemma logs_only_add_subannotations_witness :
  exists ann,
    resolveTransactionAnnotation
      (Sample.chain 0) Sample.indexing Sample.names 42 Sample.mainnet
      (Sample.minedCall [Sample.transferAliceBob]) 2 = Fulfilled ann
    /\ subannotations ann <> None
    /\ resolveTransactionAnnotation
         (Sample.chain 0) Sample.indexing Sample.names 42 Sample.mainnet
         (withLogs None (Sample.minedCall [Sample.transferAliceBob])) 2
       = Fulfilled (withoutSubannotations ann).
Proof.
  eexists. split; [vm_compute; reflexivity |]. split; [discriminate |].
  apply (logs_only_add_subannotations
           (Sample.chain 0) Sample.indexing Sample.names 42 Sample.mainnet
           (Sample.minedCall [Sample.transferAliceBob]) 2).
  vm_compute. reflexivity.
Defined.

(** X12: as soon as a transaction has a log list, be it empty, a run needs
    the catalog and the tracked accounts: when either fetch rejects, so
    does the run. *)
Theorem log_pass_needs_catalog_and_accounts
    chainService indexingService nameService now net transaction desiredDecimals
    logs_ :
  logs transaction = Some logs_ ->
  isFulfilled (getCachedAssets indexingService net) = false
  \/ isFulfilled (getAccountsToTrack chainService) = false ->
  isFulfilled
    (resolveTransactionAnnotation chainService indexingService nameService now net
                                  transaction desiredDecimals)
  = false.
Proof.
  intros Hlogs Hfail. unfold resolveTransactionAnnotation.
  destruct (checkFunds _ _ _ _) as [a1 | e1]; simpl; [| reflexivity].
  destruct (resolveBlock _ _ _ _) as [[block a2] | e2]; simpl; [| reflexivity].
  destruct (classify _ _ _ _ _ _) as [a3 | e3]; simpl; [| reflexivity].
  rewrite resolveSubannotations_isFulfilled, Hlogs.
  destruct Hfail as [-> | ->]; [reflexivity | apply andb_false_r].
Qed.

Lemma log_pass_needs_catalog_and_accounts_witness :
  isFulfilled
    (resolveTransactionAnnotation
       (Sample.chain 0) Sample.indexingDown Sample.names 42 Sample.mainnet
       (Sample.deployment (Some [])) 2)
  = false
  /\ isFulfilled
       (resolveTransactionAnnotation
          (Sample.chain 0) Sample.indexingDown Sample.names 42 Sample.mainnet
          (Sample.deployment None) 2)
     = true.
Proof.
  split; [| vm_compute; reflexivity].
  apply (log_pass_needs_catalog_and_accounts
           (Sample.chain 0) Sample.indexingDown Sample.names 42 Sample.mainnet
           (Sample.deployment (Some [])) 2 [] eq_refl).
  left. reflexivity.
Defined.

(** ** The funds check *)

(** X13: the funds check reads maxPriorityFeePerGas only to tell whether
    it is set: two requests that differ in a nonzero priority fee alone
    have the same outcome. *)
Theorem priority_fee_value_is_not_used
    chainService indexingService nameService now net transaction desiredDecimals
    fee1 fee2 :
  fee1 <> 0 -> fee2 <> 0 ->
  resolveTransactionAnnotation chainService indexingService nameService now net
    (withMaxPriorityFeePerGas (Some fee1) transaction) desiredDecimals
  = resolveTransactionAnnotation chainService indexingService nameService now net
      (withMaxPriorityFeePerGas (Some fee2) transaction) desiredDecimals.
Proof.
  intros H1 H2.
  assert (Hcheck : forall a,
             checkFunds chainService net
                        (withMaxPriorityFeePerGas (Some fee1) transaction) a
             = checkFunds chainService net
                          (withMaxPriorityFeePerGas (Some fee2) transaction) a).
  { intros a. unfold checkFunds. simpl.
    destruct (fee1 =? 0) eqn:E1; [apply Z.eqb_eq in E1; contradiction |].
    destruct (fee2 =? 0) eqn:E2; [apply Z.eqb_eq in E2; contradiction |].
    reflexivity. }
  unfold resolveTransactionAnnotation. rewrite Hcheck. reflexivity.
Qed.

Lemma priority_fee_value_is_not_used_witness :
  resolveTransactionAnnotation
    (Sample.chain 5) Sample.indexing Sample.names 42 Sample.mainnet
    (withMaxPriorityFeePerGas (Some 1) Sample.daiApprove) 2
  = resolveTransactionAnnotation
      (Sample.chain 5) Sample.indexing Sample.names 42 Sample.mainnet
      (withMaxPriorityFeePerGas (Some 1000000) Sample.daiApprove) 2.
Proof.
  apply (priority_fee_value_is_not_used
           (Sample.chain 5) Sample.indexing Sample.names 42 Sample.mainnet
           Sample.daiApprove 2 1 1000000); discriminate.
Defined.

(** X14: the classification of a transaction with call data needs the
    catalog: when the catalog fetch rejects, so does the run, whatever the
    call data is. *)
Theorem call_data_needs_catalog
    chainService indexingService nameService now net transaction desiredDecimals
    to_ input_ :
  to transaction = Some to_ ->
  input transaction = defined input_ -> input_ <> "0x" ->
  isFulfilled (getCachedAssets indexingService net) = false ->
  isFulfilled
    (resolveTransactionAnnotation chainService indexingService nameService now net
                                  transaction desiredDecimals)
  = false.
Proof.
  intros Hto Hin Hne Hfail. unfold resolveTransactionAnnotation.
  destruct (checkFunds _ _ _ _) as [a1 | e1]; simpl; [| reflexivity].
  destruct (resolveBlock _ _ _ _) as [[block a2] | e2]; simpl; [| reflexivity].
  unfold classify. rewrite Hto, Hin. simpl.
  destruct (String.eqb input_ "0x") eqn:E;
    [apply String.eqb_eq in E; contradiction |].
  destruct (getCachedAssets indexingService net); [discriminate Hfail | reflexivity].
Qed.

Lemma call_data_needs_catalog_witness :
  isFulfilled
    (resolveTransactionAnnotation
       (Sample.chain 0) Sample.indexingDown Sample.names 42 Sample.mainnet
       Sample.daiUnknownCall 2)
  = false.
Proof.
  apply (call_data_needs_catalog
           (Sample.chain 0) Sample.indexingDown Sample.names 42 Sample.mainnet
           Sample.daiUnknownCall 2 Sample.daiAddress "0x12345678" eq_refl eq_refl);
    [discriminate | reflexivity].
Defined.

(** ** Names of the recipients of logged transfers *)

Lemma distinct_In (seen xs : list string) (x : string) :
  In x (distinct seen xs) -> In x xs.
Proof.
  revert seen. induction xs as [| y rest IH]; simpl; intros seen H.
  - exact H.
  - destruct (existsb (String.eqb y) seen).
    + right. exact (IH _ H).
    + destruct H as [H | H]; [left; exact H | right; exact (IH _ H)].
Qed.

Lemma distinct_complete (seen xs : list string) (x : string) :
  In x xs -> existsb (String.eqb x) seen = false -> In x (distinct seen xs).
Proof.
  revert seen. induction xs as [| y rest IH]; simpl; intros seen Hin Hseen.
  - exact Hin.
  - destruct (String.eqb x y) eqn:Exy.
    + apply String.eqb_eq in Exy. subst y. rewrite Hseen. left. reflexivity.
    + destruct Hin as [Hin | Hin];
        [subst y; rewrite String.eqb_refl in Exy; discriminate Exy |].
      destruct (existsb (String.eqb y) seen).
      * exact (IH _ Hin Hseen).
      * right. apply IH; [exact Hin |]. simpl. rewrite Exy. exact Hseen.
Qed.

Lemma fulfilledValues_complete {A : Type} (ps : list (Promise A)) (v : A) :
  In (Fulfilled v) ps -> In v (fulfilledValues ps).
Proof.
  induction ps as [| [a | e] rest IH]; simpl; intros H.
  - contradiction.
  - destruct H as [H | H]; [left; congruence | right; exact (IH H)].
  - destruct H as [H | H]; [discriminate H | exact (IH H)].
Qed.

Lemma definedNames_complete entries k n :
  In (k, Some n) entries -> In (k, n) (definedNames entries).
Proof.
  unfold definedNames.
  induction entries as [| [k' [n' |]] rest IH]; simpl; intros H.
  - contradiction.
  - destruct H as [H | H]; [left; congruence | right; exact (IH H)].
  - destruct H as [H | H]; [discriminate H | exact (IH H)].
Qed.

(** A stored name comes from the fulfilled lookup of the recipient of one
    of the relevant transfers. *)
Lemma lookedUpNames_origin nameService net relevant k n :
  In (k, n) (lookedUpNames nameService net relevant) ->
  exists l r,
    In l relevant
    /\ normalizeEVMAddress (xfer_recipientAddress l) = k
    /\ lookUpName nameService
         {| address := xfer_recipientAddress l; network := net |}
       = Fulfilled (Some r)
    /\ name r = n.
Proof.
  unfold lookedUpNames, getDistinctRecipentAddressesFromERC20Logs. intros H.
  apply definedNames_In, fulfilledValues_In, in_map_iff in H.
  destruct H as (a & H & Ha). apply distinct_In, in_map_iff in Ha.
  destruct Ha as (l & <- & Hl). unfold lookUpRecipientName in H.
  split_await H. injection H as Hk Hn.
  destruct v as [r |]; [| discriminate Hn]. injection Hn as Hn.
  exists l, r. repeat split; assumption.
Qed.

(** The name of a recipient of a relevant transfer is stored when its
    lookup gave one. *)
Lemma lookedUpNames_stored nameService net relevant l r :
  In l relevant ->
  lookUpName nameService {| address := xfer_recipientAddress l; network := net |}
  = Fulfilled (Some r) ->
  In (normalizeEVMAddress (xfer_recipientAddress l), name r)
     (lookedUpNames nameService net relevant).
Proof.
  intros Hl Hr. unfold lookedUpNames, getDistinctRecipentAddressesFromERC20Logs.
  apply definedNames_complete, fulfilledValues_complete, in_map_iff.
  exists (xfer_recipientAddress l). split.
  - unfold lookUpRecipientName. rewrite Hr. reflexivity.
  - apply distinct_complete; [apply in_map; exact Hl | reflexivity].
Qed.

Lemma namesByAddressGet_agreed (m : NamesByAddress) (key n : string) :
  In (key, n) m ->
  (forall n', In (key, n') m -> n' = n) ->
  namesByAddressGet m key = Some n.
Proof.
  unfold namesByAddressGet. intros Hin Hall.
  assert (G : forall found,
             found = Some n \/ In (key, n) m ->
             fold_left (fun found e =>
                          if String.eqb (fst e) key then Some (snd e) else found)
                       m found = Some n).
  { clear Hin. induction m as [| [k v] rest IH]; simpl; intros found H.
    - destruct H as [H | []]. exact H.
    - apply IH; [intros n' Hn'; apply Hall; right; exact Hn' |].
      destruct (String.eqb k key) eqn:E.
      + apply String.eqb_eq in E. subst k. left. f_equal.
        apply Hall. left. reflexivity.
      + destruct H as [H | [H | H]]; [left; exact H | | right; exact H].
        injection H as -> _. rewrite String.eqb_refl in E. discriminate E. }
  apply G. right. exact Hin.
Qed.

Lemma subannotation_name_read
    assets namesByAddress desiredDecimals resolvedTime block transfers sub recipient :
  In sub (flat_map (subannotationOfTransfer assets namesByAddress desiredDecimals
                                            resolvedTime block) transfers) ->
  recipientAddress sub = Some recipient ->
  recipientName sub
  = namesByAddressGet namesByAddress (normalizeEVMAddress recipient).
Proof.
  intros Hin Hrec. apply in_flat_map in Hin. destruct Hin as (l & _ & Hin).
  unfold subannotationOfTransfer in Hin.
  destruct (findMatchingFungibleAsset assets (xfer_contractAddress l));
    [| contradiction].
  destruct Hin as [<- | []]. simpl in *. injection Hrec as ->. reflexivity.
Qed.

(** The sub-annotations of a fulfilled run and the names they read. *)
Lemma resolveTransactionAnnotation_names
    chainService indexingService nameService now net transaction desiredDecimals
    logs_ accounts ann sub recipient :
  logs transaction = Some logs_ ->
  getAccountsToTrack chainService = Fulfilled accounts ->
  resolveTransactionAnnotation chainService indexingService nameService now net
                               transaction desiredDecimals = Fulfilled ann ->
  In sub (subannotationList ann) ->
  recipientAddress sub = Some recipient ->
  recipientName sub
  = namesByAddressGet
      (lookedUpNames nameService net (relevantTransferLogsOf logs_ accounts))
      (normalizeEVMAddress recipient).
Proof.
  intros Hlogs Hacc H Hin Hrec.
  destruct (resolveTransactionAnnotation_subannotations _ _ _ _ _ _ _ _ _ Hlogs H)
    as (block & Hsubs).
  apply annotationsFromLogs_result in Hsubs.
  destruct Hsubs as (assets & accounts' & _ & Hacc' & Hs).
  rewrite Hacc in Hacc'. injection Hacc' as <-. rewrite Hs in Hin.
  exact (subannotation_name_read _ _ _ _ _ _ _ _ Hin Hrec).
Qed.

(** X15: names are looked up for the recipients of the transfers that touch
    a tracked account only: a sub-annotation whose recipient is, up to case,
    the recipient of no such transfer has no recipient name, whatever the
    name service knows. *)
Theorem untracked_recipients_stay_unnamed
    chainService indexingService nameService now net transaction desiredDecimals
    logs_ accounts ann sub recipient :
  logs transaction = Some logs_ ->
  getAccountsToTrack chainService = Fulfilled accounts ->
  resolveTransactionAnnotation chainService indexingService nameService now net
                               transaction desiredDecimals = Fulfilled ann ->
  In sub (subannotationList ann) ->
  recipientAddress sub = Some recipient ->
  (forall l, In l (relevantTransferLogsOf logs_ accounts) ->
             normalizeEVMAddress (xfer_recipientAddress l)
             <> normalizeEVMAddress recipient) ->
  recipientName sub = None.
Proof.
  intros Hlogs Hacc H Hin Hrec Hnone.
  rewrite (resolveTransactionAnnotation_names _ _ _ _ _ _ _ _ _ _ _ _
             Hlogs Hacc H Hin Hrec).
  destruct (namesByAddressGet _ _) as [n |] eqn:E; [| reflexivity].
  unfold namesByAddressGet in E. apply namesByAddressGet_found in E.
  destruct E as [E | E]; [discriminate E |].
  apply lookedUpNames_origin in E. destruct E as (l & r & Hl & Hk & _).
  destruct (Hnone l Hl Hk).
Qed.

Lemma untracked_recipients_stay_unnamed_witness :
  exists ann,
    resolveTransactionAnnotation
      (Sample.chain 0) Sample.indexing Sample.namesAll 42 Sample.mainnet
      (Sample.minedCall [Sample.depositAlice; Sample.transferBobCarol]) 2
    = Fulfilled ann
    /\ map recipientAddress (subannotationList ann)
       = [Some Sample.carol; Some Sample.alice]
    /\ forall sub,
         In sub (subannotationList ann) ->
         recipientAddress sub = Some Sample.carol ->
         recipientName sub = None.
Proof.
  eexists. split; [vm_compute; reflexivity |]. split; [reflexivity |].
  intros sub Hin Hrec.
  apply (untracked_recipients_stay_unnamed
           (Sample.chain 0) Sample.indexing Sample.namesAll 42 Sample.mainnet
           (Sample.minedCall [Sample.depositAlice; Sample.transferBobCarol]) 2
           [Sample.depositAlice; Sample.transferBobCarol]
           [ {| address := Sample.alice; network := Sample.mainnet |} ]
           _ sub Sample.carol eq_refl eq_refl eq_refl Hin Hrec).
  intros l Hl. vm_compute in Hl. destruct Hl as [<- | []]. vm_compute. discriminate.
Defined.

(** X16: the recipient of a transfer that touches a tracked account is
    named in its sub-annotation: when the lookup of that recipient gave a
    name, and the lookups of the relevant recipients that are the same
    address up to case gave no other name, that name is the recipient name
    of every sub-annotation with that recipient. *)
Theorem tracked_recipient_is_named
    chainService indexingService nameService now net transaction desiredDecimals
    logs_ accounts ann sub recipient l r :
  logs transaction = Some logs_ ->
  getAccountsToTrack chainService = Fulfilled accounts ->
  resolveTransactionAnnotation chainService indexingService nameService now net
                               transaction desiredDecimals = Fulfilled ann ->
  In sub (subannotationList ann) ->
  recipientAddress sub = Some recipient ->
  In l (relevantTransferLogsOf logs_ accounts) ->
  normalizeEVMAddress (xfer_recipientAddress l) = normalizeEVMAddress recipient ->
  lookUpName nameService {| address := xfer_recipientAddress l; network := net |}
  = Fulfilled (Some r) ->
  (forall l' r',
      In l' (relevantTransferLogsOf logs_ accounts) ->
      normalizeEVMAddress (xfer_recipientAddress l')
      = normalizeEVMAddress recipient ->
      lookUpName nameService
        {| address := xfer_recipientAddress l'; network := net |}
      = Fulfilled (Some r') ->
      name r' = name r) ->
  recipientName sub = Some (name r).
Proof.
  intros Hlogs Hacc H Hin Hrec Hl Hnorm Hr Hagree.
  rewrite (resolveTransactionAnnotation_names _ _ _ _ _ _ _ _ _ _ _ _
             Hlogs Hacc H Hin Hrec).
  apply namesByAddressGet_agreed.
  - rewrite <- Hnorm. apply lookedUpNames_stored; assumption.
  - intros n' Hn'. apply lookedUpNames_origin in Hn'.
    destruct Hn' as (l' & r' & Hl' & Hk & Hr' & <-).
    exact (Hagree l' r' Hl' Hk Hr').
Qed.

Lemma tracked_recipient_is_named_witness :
  exists ann,
    resolveTransactionAnnotation
      (Sample.chain 0) Sample.indexing Sample.names 42 Sample.mainnet
      (Sample.minedCall [Sample.transferAliceBob; Sample.depositAlice]) 2
    = Fulfilled ann
    /\ forall sub,
         In sub (subannotationList ann) ->
         recipientAddress sub = Some Sample.bob ->
         recipientName sub = Some "bob.eth".
Proof.
  eexists. split; [vm_compute; reflexivity |].
  intros sub Hin Hrec.
  apply (tracked_recipient_is_named
           (Sample.chain 0) Sample.indexing Sample.names 42 Sample.mainnet
           (Sample.minedCall [Sample.transferAliceBob; Sample.depositAlice]) 2
           [Sample.transferAliceBob; Sample.depositAlice]
           [ {| address := Sample.alice; network := Sample.mainnet |} ]
           _ sub Sample.bob
           {| xfer_contractAddress := Sample.daiAddress; xfer_amount := 100;
              xfer_senderAddress := Sample.alice;
              xfer_recipientAddress := Sample.bob |}
           {| name := "bob.eth" |} eq_refl eq_refl eq_refl Hin Hrec).
  - vm_compute. left. reflexivity.
  - reflexivity.
  - reflexivity.
  - intros l' r' Hl' _ Hr'. vm_compute in Hl'.
    destruct Hl' as [<- | [<- | []]]; vm_compute in Hr';
      [injection Hr' as <-; reflexivity | discriminate Hr'].
Defined.

(** ** The asset matcher *)

(** X17: no asset is found for an address exactly when no contract-backed
    fungible entry of the catalog has that address; entries that are not
    fungible and fungible entries without a contract address never
    match. *)
Theorem no_matching_asset_iff (assets : list AnyAsset) (addr : string) :
  findMatchingFungibleAsset assets addr = None
  <-> forall f c,
        In (Fungible f) assets ->
        asset_contractAddress f = Some c ->
        sameEVMAddress c addr = false.
Proof.
  induction assets as [| a rest IH]; simpl.
  - split; [intros _ f c [] | reflexivity].
  - destruct a as [s | g]; simpl.
    + rewrite IH. split.
      * intros H f c [E | Hin]; [discriminate E | exact (H f c Hin)].
      * intros H f c Hin. apply H. right. exact Hin.
    + destruct (asset_contractAddress g) as [c0 |] eqn:Ec.
      * destruct (sameEVMAddress c0 addr) eqn:Es.
        -- split; [discriminate |]. intros H.
           rewrite (H g c0 (or_introl eq_refl) Ec) in Es. discriminate Es.
        -- rewrite IH. split.
           ++ intros H f c [E | Hin] Hc; [| exact (H f c Hin Hc)].
              injection E as <-. rewrite Ec in Hc. injection Hc as <-. exact Es.
           ++ intros H f c Hin. apply H. right. exact Hin.
      * rewrite IH. split.
        -- intros H f c [E | Hin] Hc; [| exact (H f c Hin Hc)].
           injection E as <-. rewrite Ec in Hc. discriminate Hc.
        -- intros H f c Hin. apply H. right. exact Hin.
Qed.

(** X18: when several entries of the catalog have the address, the asset
    that is found is the first of them. *)
Theorem first_matching_asset_wins
    (before after : list AnyAsset) (f : FungibleAsset) (c addr : string) :
  findMatchingFungibleAsset before addr = None ->
  asset_contractAddress f = Some c ->
  sameEVMAddress c addr = true ->
  findMatchingFungibleAsset (before ++ Fungible f :: after)%list addr = Some f.
Proof.
  intros Hnone Hc Hsame.
  induction before as [| a rest IH]; simpl in *.
  - rewrite Hc, Hsame. reflexivity.
  - destruct (isSmartContractFungibleAsset a) as [[g c0] |].
    + destruct (sameEVMAddress c0 addr); [discriminate Hnone | exact (IH Hnone)].
    + exact (IH Hnone).
Qed.

Lemma first_matching_asset_wins_witness :
  findMatchingFungibleAsset
    ([OtherAsset "PUNK"; Fungible Sample.ETH]
     ++ Fungible Sample.DAI
        :: [Fungible {| symbol := "FAKE"; decimals := 6;
                        asset_contractAddress := Some Sample.daiAddress;
                        metadata := None |}])%list
    Sample.daiAddress
  = Some Sample.DAI.
Proof.
  apply (first_matching_asset_wins
           [OtherAsset "PUNK"; Fungible Sample.ETH] _ Sample.DAI
           "0x6B175474E89094C44Da98b954EedeAC495271d0F" Sample.daiAddress);
    reflexivity.
Defined.
